(** * youtube_channel_export: a shallow embedding and its properties

    The development follows [youtube_channel_export.py] function by function.
    Python strings are modelled by [string] (a character is a code point
    below 256), JSON documents by the inductive type [json], and the effects
    of the script (network calls, pauses, files, console output) by a state
    and exception monad over an explicit [state]. *)

From Stdlib Require Import Ascii String ZArith NArith Bool Lia DecimalString.
From stdpp Require Import base tactics option list gmap strings.

Local Open Scope string_scope.
Local Open Scope list_scope.

(** ** Characters and strings *)

Module Str.

(** [str.isspace] on one character, which is what [str.strip] and the
    regular expression class [\s] test: the ASCII table of CPython
    (9-13, 28-32) and the two further white-space code points below 256. *)
Definition is_space (c : ascii) : bool :=
  let n := N_of_ascii c in
  (((9 <=? n) && (n <=? 13)) || ((28 <=? n) && (n <=? 32))
   || (n =? 133) || (n =? 160))%N.

Definition is_empty (s : string) : bool :=
  match s with EmptyString => true | String _ _ => false end.

Fixpoint lstrip (s : string) : string :=
  match s with
  | EmptyString => EmptyString
  | String c r => if is_space c then lstrip r else s
  end.

Fixpoint rstrip (s : string) : string :=
  match s with
  | EmptyString => EmptyString
  | String c r =>
      let r' := rstrip r in
      if is_space c && is_empty r' then EmptyString else String c r'
  end.

(** [s.strip()] *)
Definition strip (s : string) : string := rstrip (lstrip s).

(** [s.startswith(p)] *)
Definition startswith (s p : string) : bool := String.prefix p s.

(** [s[n:]] and [s[:n]] for a non-negative [n] *)
Fixpoint drop (n : nat) (s : string) : string :=
  match n, s with
  | O, _ => s
  | S _, EmptyString => EmptyString
  | S n', String _ r => drop n' r
  end.

Fixpoint take (n : nat) (s : string) : string :=
  match n, s with
  | O, _ => EmptyString
  | S _, EmptyString => EmptyString
  | S n', String c r => String c (take n' r)
  end.

Fixpoint map (f : ascii -> ascii) (s : string) : string :=
  match s with
  | EmptyString => EmptyString
  | String c r => String (f c) (map f r)
  end.

Fixpoint take_while (p : ascii -> bool) (s : string) : string :=
  match s with
  | EmptyString => EmptyString
  | String c r => if p c then String c (take_while p r) else EmptyString
  end.

Fixpoint forallb (p : ascii -> bool) (s : string) : bool :=
  match s with
  | EmptyString => true
  | String c r => p c && forallb p r
  end.

(** [sep.join(parts)] *)
Fixpoint join (sep : string) (parts : list string) : string :=
  match parts with
  | [] => EmptyString
  | [p] => p
  | p :: rest => p ++ sep ++ join sep rest
  end.

Fixpoint last_char (s : string) : option ascii :=
  match s with
  | EmptyString => None
  | String c EmptyString => Some c
  | String _ r => last_char r
  end.

(** No run of white space but a single space character *)
Fixpoint collapsed_from (after_space : bool) (s : string) : bool :=
  match s with
  | EmptyString => true
  | String c r =>
      if is_space c
      then Ascii.eqb c " " && negb after_space && collapsed_from true r
      else collapsed_from false r
  end.


(** A string that starts with a character that is not white space *)
Definition starts_solid (s : string) : Prop :=
match s with
| EmptyString => False
| String c _ => is_space c = false
end.

End Str.

(** ** The regular expressions of the script *)

Module Re.

Definition in_range (lo hi c : ascii) : bool :=
  ((N_of_ascii lo <=? N_of_ascii c) && (N_of_ascii c <=? N_of_ascii hi))%N.

Definition is_alnum (c : ascii) : bool :=
  in_range "A" "Z" c || in_range "a" "z" c || in_range "0" "9" c.

(** [[A-Za-z0-9_-]] *)
Definition token_char (c : ascii) : bool :=
  is_alnum c || Ascii.eqb c "_" || Ascii.eqb c "-".

(** [[A-Za-z0-9_.-]] *)
Definition handle_char (c : ascii) : bool :=
  token_char c || Ascii.eqb c ".".

(** The class of the first substitution of [sanitize_filename]: backslash,
    slash, colon, star, question mark, double quote, the two angle
    brackets and the bar (codes 92 47 58 42 63 34 60 62 124). *)
Definition unsafe_char (c : ascii) : bool :=
  (let n := N_of_ascii c in
   (n =? 92) || (n =? 47) || (n =? 58) || (n =? 42) || (n =? 63)
   || (n =? 34) || (n =? 60) || (n =? 62) || (n =? 124))%N.

(** A match of [lit([cls]+)] anchored at the start of [s]: the group, the
    longest non-empty run of [cls] characters after the literal. *)
Definition match_at (lit : string) (cls : ascii -> bool) (s : string)
  : option string :=
  if Str.startswith s lit then
    let g := Str.take_while cls (Str.drop (String.length lit) s) in
    if Str.is_empty g then None else Some g
  else None.

(** [re.search] of the pattern [lit([cls]+)] in [s]: group 1 of the
    leftmost match. *)
Fixpoint search (lit : string) (cls : ascii -> bool) (s : string)
  : option string :=
  match match_at lit cls s with
  | Some g => Some g
  | None =>
      match s with
      | EmptyString => None
      | String _ r => search lit cls r
      end
  end.

(** [re.sub] of the unsafe class by an underscore *)
Definition sub_unsafe (s : string) : string :=
  Str.map (fun c => if unsafe_char c then "_"%char else c) s.

(** [re.sub] of [\s+] by one space: every maximal run of white space
    becomes a single space. *)
Fixpoint sub_spaces_from (in_run : bool) (s : string) : string :=
  match s with
  | EmptyString => EmptyString
  | String c r =>
      if Str.is_space c then
        if in_run then sub_spaces_from true r
        else String " " (sub_spaces_from true r)
      else String c (sub_spaces_from false r)
  end.

Definition sub_spaces (s : string) : string := sub_spaces_from false s.


End Re.

(** ** Pure helpers of the script *)

(** [sanitize_filename] *)
Definition sanitize_filename (name : string) : string :=
  let name := if Str.is_empty (Str.strip name) then "channel"
              else Str.strip name in
  let name := Re.sub_unsafe name in
  let name := Re.sub_spaces name in
  Str.take 120 name.

(** [extract_channel_identifier]: the pair (kind, identifier), the kind being
    one of the strings id, username and query. *)
Definition extract_channel_identifier (value : string) : string * string :=
  let v := Str.strip value in
  if Str.startswith v "UC" && (20 <=? String.length v)%nat then ("id", v)
  else
    match Re.search "youtube.com/channel/" Re.token_char v with
    | Some g => ("id", g)
    | None =>
    match Re.search "youtube.com/user/" Re.token_char v with
    | Some g => ("username", g)
    | None =>
    match Re.search "youtube.com/@" Re.handle_char v with
    | Some g => ("query", g)
    | None =>
    if Str.startswith v "@" then ("query", Str.drop 1 v)
    else
    match Re.search "youtube.com/c/" Re.handle_char v with
    | Some g => ("query", g)
    | None => ("query", v)
    end end end end.

(** [read_channels], on the lines of the input file *)
Definition read_channels (lines : list string) : list string :=
  List.filter
    (fun value => negb (Str.is_empty value || Str.startswith value "#"))
    (List.map Str.strip lines).

(** [os.path.join(a, b)] of [posixpath] for two components *)
Definition path_join (a b : string) : string :=
  if Str.startswith b "/" then b
  else if Str.is_empty a then b
  else match Str.last_char a with
       | Some "/"%char => a ++ b
       | _ => a ++ "/" ++ b
       end.

(** ** JSON documents as the Python objects [json.loads] builds *)

(** A dict is kept as its items in insertion order (keys distinct, as in a
    decoded object); numbers are the integers. *)
#[warnings="-register-all"] Inductive json : Type :=
| JNull
| JBool (b : bool)
| JNum (n : Z)
| JStr (s : string)
| JArr (items : list json)
| JObj (fields : list (string * json)).

(** What the script can raise: its own [YouTubeApiError] with its argument,
    the built-in errors of a dynamically ill-typed access, and whatever the
    transport ([urlopen], [read], [decode]) raised. *)
Inductive exn : Type :=
| YouTubeApiError (arg : json)
| AttributeError
| KeyError
| IndexError
| TypeError
| ValueError
| UrlopenError (descr : string).

(** The outcome of running a piece of the script: a value, an exception, or
    no outcome within the given number of loop iterations. *)
Inductive result (A : Type) : Type :=
| Ok (a : A)
| Raise (e : exn)
| Diverge.
Arguments Ok {A} a.
Arguments Raise {A} e.
Arguments Diverge {A}.

Definition rbind {A B} (r : result A) (k : A -> result B) : result B :=
  match r with
  | Ok a => k a
  | Raise e => Raise e
  | Diverge => Diverge
  end.

Notation "x <- c ;; k" := (rbind c (fun x => k))
  (at level 100, c at next level, right associativity).

Module Py.

(** Truth value of an object, as tested by [if x] and [not x] *)
Definition truthy (v : json) : bool :=
  match v with
  | JNull => false
  | JBool b => b
  | JNum n => negb (n =? 0)%Z
  | JStr s => negb (Str.is_empty s)
  | JArr l => match l with [] => false | _ => true end
  | JObj f => match f with [] => false | _ => true end
  end.

Fixpoint assoc (k : string) (f : list (string * json)) : option json :=
  match f with
  | [] => None
  | (k', v) :: r => if String.eqb k' k then Some v else assoc k r
  end.

(** [d.get(k, default)] *)
Definition get (d : json) (k : string) (default : json) : result json :=
  match d with
  | JObj f => Ok (match assoc k f with Some v => v | None => default end)
  | _ => Raise AttributeError
  end.

(** [d.get(k)] *)
Definition get_none (d : json) (k : string) : result json := get d k JNull.

(** [d[k]] for a string [k] *)
Definition getitem (d : json) (k : string) : result json :=
  match d with
  | JObj f => match assoc k f with Some v => Ok v | None => Raise KeyError end
  | _ => Raise TypeError
  end.

(** [x[0]] *)
Definition first (x : json) : result json :=
  match x with
  | JArr (v :: _) => Ok v
  | JArr [] => Raise IndexError
  | JStr (String c _) => Ok (JStr (String c EmptyString))
  | JStr EmptyString => Raise IndexError
  | JObj _ => Raise KeyError
  | _ => Raise TypeError
  end.

Fixpoint chars (s : string) : list json :=
  match s with
  | EmptyString => []
  | String c r => JStr (String c EmptyString) :: chars r
  end.

(** The elements [for x in v] goes through *)
Definition iter (v : json) : result (list json) :=
  match v with
  | JArr l => Ok l
  | JObj f => Ok (List.map (fun kv => JStr (fst kv)) f)
  | JStr s => Ok (chars s)
  | _ => Raise TypeError
  end.

Fixpoint is_substring (p s : string) : bool :=
  String.prefix p s
  || match s with EmptyString => false | String _ r => is_substring p r end.

(** [k in v] for a string [k] *)
Definition contains (v : json) (k : string) : result bool :=
  match v with
  | JObj f => Ok (match assoc k f with Some _ => true | None => false end)
  | JArr l =>
      Ok (existsb (fun x => match x with
                            | JStr s => String.eqb s k
                            | _ => false
                            end) l)
  | JStr s => Ok (is_substring k s)
  | _ => Raise TypeError
  end.

Fixpoint strings (l : list json) : option (list string) :=
  match l with
  | [] => Some []
  | JStr s :: r =>
      match strings r with Some ss => Some (s :: ss) | None => None end
  | _ :: _ => None
  end.

(** [sep.join(l)]: every element has to be a string *)
Definition join (sep : string) (l : list json) : result string :=
  match strings l with
  | Some ss => Ok (Str.join sep ss)
  | None => Raise TypeError
  end.

Section Repr.

(** [repr] of a list or a dict is left to the interpreter. *)
Variable repr : json -> string.

(** [str(v)] *)
Definition str (v : json) : string :=
  match v with
  | JStr s => s
  | JNull => "None"
  | JBool true => "True"
  | JBool false => "False"
  | JNum n => DecimalString.NilZero.string_of_int (Z.to_int n)
  | JArr _ | JObj _ => repr v
  end.

End Repr.

End Py.

(** ** The world the script runs in *)

(** A GET of [API_BASE/path?urlencode(params)] *)
Record request : Type := Request {
  req_path : string;
  req_params : list (string * json)
}.

(** What a GET produces, transport and decoder taken together: [urlopen],
    [read] or [decode] raised; [json.loads] raised [JSONDecodeError]; or the
    body decoded to a JSON document. *)
Inductive response : Type :=
| NetFailure (descr : string)
| InvalidJson (exc : string)
| Decoded (payload : json).

(** The lines the script prints *)
Inductive message : Type :=
| MsgSkip (value : string)
| MsgWroteVideos (n : nat) (path : string)
| MsgError (value : string) (exc : exn)
| MsgWroteChannels (n : nat) (path : string)
| MsgNoApiKey
| MsgNoChannels.

Inductive event : Type :=
| EvGet (r : request)
| EvSleep
| EvOpenW (path : string)
| EvStdout (m : message)
| EvStderr (m : message).

(** A CSV file is the list of the rows handed to the writer, a row the list
    of its cell values. *)
Abbreviation csv := (list (list json)).
Abbreviation row_dict := (list (string * json)).

Section Script.

(** The state of the network and the answer of the platform to a request *)
Variable net : Type.
Variable platform : request -> net -> response * net.
Variable repr : json -> string.

(** The state of a run: the network, the files written (opening a file for
    writing always succeeds), the events so far, and [channel_rows], the
    list [main] appends to, which survives an exception of the loop body. *)
Record state : Type := State {
  st_net : net;
  st_files : gmap string csv;
  st_trace : list event;
  channel_rows : list row_dict
}.

Definition M (A : Type) : Type := state -> result A * state.

Definition ret {A} (a : A) : M A := fun st => (Ok a, st).

Definition bind {A B} (m : M A) (k : A -> M B) : M B :=
  fun st =>
    match m st with
    | (Ok a, st') => k a st'
    | (Raise e, st') => (Raise e, st')
    | (Diverge, st') => (Diverge, st')
    end.

Definition lift {A} (r : result A) : M A := fun st => (r, st).

Definition raise {A} (e : exn) : M A := lift (Raise e).

(** [try: body except Exception as exc: handler(exc)] *)
Definition try_except (body : M unit) (handler : exn -> M unit) : M unit :=
  fun st =>
    match body st with
    | (Raise e, st') => handler e st'
    | other => other
    end.

Notation "x <~ c ;; k" := (bind c (fun x => k))
  (at level 100, c at next level, right associativity).
Notation "c ;;; k" := (bind c (fun _ => k))
  (at level 100, right associativity).

Definition emit (e : event) : M unit :=
  fun st => (Ok tt, State (st_net st) (st_files st) (st_trace st ++ [e])
                          (channel_rows st)).

(** [open(path, "w")]: the file is created or truncated *)
Definition open_w (path : string) : M unit :=
  fun st => (Ok tt, State (st_net st) (<[path := []]> (st_files st))
                          (st_trace st ++ [EvOpenW path]) (channel_rows st)).

(** [writer.writerow(row)] on the file opened at [path] *)
Definition writerow (path : string) (row : list json) : M unit :=
  fun st => (Ok tt, State (st_net st)
                          (alter (fun rows => rows ++ [row]) path (st_files st))
                          (st_trace st) (channel_rows st)).

(** [channel_rows.append(row)] *)
Definition append_row (row : row_dict) : M unit :=
  fun st => (Ok tt, State (st_net st) (st_files st) (st_trace st)
                          (channel_rows st ++ [row])).

(** [channel_rows = []] *)
Definition reset_rows : M unit :=
  fun st => (Ok tt, State (st_net st) (st_files st) (st_trace st) []).

Definition get_rows : M (list row_dict) :=
  fun st => (Ok (channel_rows st), st).

(** ** The API client *)

(** One round trip: the request goes out and the answer comes back. *)
Definition send (rq : request) : M response :=
  fun st =>
    let '(resp, n') := platform rq (st_net st) in
    (Ok resp, State n' (st_files st) (st_trace st ++ [EvGet rq])
                    (channel_rows st)).

(** [http_get] *)
Definition http_get (path : string) (params : list (string * json)) : M json :=
  resp <~ send (Request path params) ;;
  match resp with
  | NetFailure descr => raise (UrlopenError descr)
  | InvalidJson exc =>
      raise (YouTubeApiError (JStr ("Invalid JSON from API: " ++ exc)))
  | Decoded payload =>
      has_error <~ lift (Py.contains payload "error") ;;
      if has_error : bool then
        err <~ lift (Py.getitem payload "error") ;;
        msg <~ lift (Py.get err "message" (JStr "API error")) ;;
        raise (YouTubeApiError msg)
      else ret payload
  end.

(** ** Resolver and detail fetcher *)

(** [resolve_channel_id]; [None] is [JNull] *)
Definition resolve_channel_id (api_key value : string) : M json :=
  let '(kind, ident) := extract_channel_identifier value in
  if String.eqb kind "id" then ret (JStr ident)
  else if String.eqb kind "username" then
    payload <~ http_get "channels"
                 [("part", JStr "id"); ("forUsername", JStr ident);
                  ("key", JStr api_key)] ;;
    items <~ lift (Py.get payload "items" (JArr [])) ;;
    if Py.truthy items then
      it <~ lift (Py.first items) ;;
      lift (Py.getitem it "id")
    else ret JNull
  else
    payload <~ http_get "search"
                 [("part", JStr "snippet"); ("q", JStr ident);
                  ("type", JStr "channel"); ("maxResults", JStr "1");
                  ("key", JStr api_key)] ;;
    items <~ lift (Py.get payload "items" (JArr [])) ;;
    if negb (Py.truthy items) then ret JNull
    else
      it <~ lift (Py.first items) ;;
      sn <~ lift (Py.getitem it "snippet") ;;
      lift (Py.getitem sn "channelId").

(** [get_channel_details] *)
Definition get_channel_details (api_key : string) (channel_id : json) : M json :=
  payload <~ http_get "channels"
               [("part", JStr "snippet,contentDetails,statistics");
                ("id", channel_id); ("key", JStr api_key)] ;;
  items <~ lift (Py.get payload "items" (JArr [])) ;;
  if negb (Py.truthy items) then
    raise (YouTubeApiError
             (JStr ("Channel not found: " ++ Py.str repr channel_id)))
  else lift (Py.first items).

(** ** Upload enumerator *)

(** The body of the [for item in ...] loop of the enumerator: the IDs one
    page yields. *)
Fixpoint page_video_ids (items : list json) : result (list json) :=
  match items with
  | [] => Ok []
  | item :: rest =>
      content <- Py.get item "contentDetails" (JObj []) ;;
      vid <- Py.get_none content "videoId" ;;
      vids <- page_video_ids rest ;;
      Ok (if Py.truthy vid then vid :: vids else vids)
  end.

Definition playlist_params (api_key : string) (uploads_playlist_id page_token : json)
  : list (string * json) :=
  [("part", JStr "contentDetails"); ("playlistId", uploads_playlist_id);
   ("maxResults", JStr "50"); ("key", JStr api_key)]
  ++ (if Py.truthy page_token then [("pageToken", page_token)] else []).

(** The [while True] loop of [iter_uploads_playlist_video_ids], entered with
    [page_token]; it returns what the generator yields from there on. Each
    iteration uses one unit of [fuel]. *)
Fixpoint uploads_loop (fuel : nat) (api_key : string)
  (uploads_playlist_id page_token : json) : M (list json) :=
  match fuel with
  | O => lift Diverge
  | S fuel' =>
      payload <~ http_get "playlistItems"
                   (playlist_params api_key uploads_playlist_id page_token) ;;
      items <~ lift (Py.get payload "items" (JArr [])) ;;
      items <~ lift (Py.iter items) ;;
      vids <~ lift (page_video_ids items) ;;
      next <~ lift (Py.get payload "nextPageToken" (JStr "")) ;;
      if negb (Py.truthy next) then ret vids
      else
        more <~ uploads_loop fuel' api_key uploads_playlist_id next ;;
        ret (vids ++ more)
  end.

(** [list(iter_uploads_playlist_video_ids(api_key, uploads_playlist_id))],
    the generator consumed to its end as [main] does. *)
Definition iter_uploads_playlist_video_ids (fuel : nat) (api_key : string)
  (uploads_playlist_id : json) : M (list json) :=
  uploads_loop fuel api_key uploads_playlist_id (JStr "").

(** ** Batch video fetcher *)

(** [range(start, stop, step)] for a positive [step] *)
Fixpoint range_from (fuel start stop step : nat) : list nat :=
  match fuel with
  | O => []
  | S fuel' =>
      if (start <? stop)%nat
      then start :: range_from fuel' (start + step) stop step
      else []
  end.

(** [list(chunks(items, size))]; [range] refuses a zero step. *)
Definition chunks {A} (items : list A) (size : nat) : result (list (list A)) :=
  match size with
  | O => Raise ValueError
  | S _ =>
      Ok (List.map (fun i => firstn size (skipn i items))
                   (range_from (length items) 0 (length items) size))
  end.

Definition videos_params (api_key : string) (ids : string)
  : list (string * json) :=
  [("part", JStr "snippet,contentDetails,statistics"); ("id", JStr ids);
   ("maxResults", JStr "50"); ("key", JStr api_key)].

(** The [for batch in ...] loop of [fetch_videos_details] *)
Fixpoint fetch_batches (api_key : string) (batches : list (list json))
  (details : list json) : M (list json) :=
  match batches with
  | [] => ret details
  | batch :: rest =>
      ids <~ lift (Py.join "," batch) ;;
      payload <~ http_get "videos" (videos_params api_key ids) ;;
      items <~ lift (Py.get payload "items" (JArr [])) ;;
      items <~ lift (Py.iter items) ;;
      emit EvSleep ;;;
      fetch_batches api_key rest (details ++ items)
  end.

(** [fetch_videos_details] *)
Definition fetch_videos_details (api_key : string) (video_ids : list json)
  : M (list json) :=
  batches <~ lift (chunks video_ids 50) ;;
  fetch_batches api_key batches [].

(** ** Tabular writers *)

(** [format_tags] *)
Definition format_tags (tags : json) : result string :=
  if negb (Py.truthy tags) then Ok ""
  else
    l <- Py.iter tags ;;
    Py.join "|" l.

Definition videos_header : list json :=
  List.map JStr
    ["source_input"; "channel_id"; "channel_title"; "video_id"; "video_title";
     "video_description"; "video_published_at"; "video_tags";
     "video_category_id"; "video_duration"; "video_definition";
     "video_caption"; "video_licensed_content"; "video_projection";
     "video_view_count"; "video_like_count"; "video_comment_count";
     "video_favorite_count"].

(** The cells of the row of one video, each evaluated in the order of the
    list display of [write_videos_info]. *)
Definition video_row (source_input : string) (channel_id channel_title : json)
  (video : json) : result (list json) :=
  snippet <- Py.get video "snippet" (JObj []) ;;
  stats <- Py.get video "statistics" (JObj []) ;;
  content <- Py.get video "contentDetails" (JObj []) ;;
  video_id <- Py.get video "id" (JStr "") ;;
  title <- Py.get snippet "title" (JStr "") ;;
  description <- Py.get snippet "description" (JStr "") ;;
  published_at <- Py.get snippet "publishedAt" (JStr "") ;;
  tags <- Py.get_none snippet "tags" ;;
  tags <- format_tags tags ;;
  category_id <- Py.get snippet "categoryId" (JStr "") ;;
  duration <- Py.get content "duration" (JStr "") ;;
  definition <- Py.get content "definition" (JStr "") ;;
  caption <- Py.get content "caption" (JStr "") ;;
  licensed <- Py.get content "licensedContent" (JStr "") ;;
  projection <- Py.get content "projection" (JStr "") ;;
  view_count <- Py.get stats "viewCount" (JStr "") ;;
  like_count <- Py.get stats "likeCount" (JStr "") ;;
  comment_count <- Py.get stats "commentCount" (JStr "") ;;
  favorite_count <- Py.get stats "favoriteCount" (JStr "") ;;
  Ok [JStr source_input; channel_id; channel_title; video_id; title;
      description; published_at; JStr tags; category_id; duration;
      definition; caption; JStr (Py.str repr licensed); projection;
      view_count; like_count; comment_count; favorite_count].

(** The [for video in videos] loop of [write_videos_info] *)
Fixpoint write_video_rows (out_path source_input : string)
  (channel_id channel_title : json) (videos : list json) : M unit :=
  match videos with
  | [] => ret tt
  | video :: rest =>
      row <~ lift (video_row source_input channel_id channel_title video) ;;
      writerow out_path row ;;;
      write_video_rows out_path source_input channel_id channel_title rest
  end.

(** [write_videos_info] *)
Definition write_videos_info (out_path : string) (channel : json)
  (videos : list json) (source_input : string) : M unit :=
  channel_id <~ lift (Py.get channel "id" (JStr "")) ;;
  snippet <~ lift (Py.get channel "snippet" (JObj [])) ;;
  channel_title <~ lift (Py.get snippet "title" (JStr "")) ;;
  open_w out_path ;;;
  writerow out_path videos_header ;;;
  write_video_rows out_path source_input channel_id channel_title videos.

Definition channels_header : list string :=
  ["source_input"; "channel_id"; "channel_title"; "channel_description";
   "channel_published_at"; "channel_country"; "channel_view_count";
   "channel_subscriber_count"; "channel_video_count"].

(** [DictWriter.writerow]: the values in the order of the field names, the
    empty string for a key the dict lacks; a key outside the field names is
    refused. *)
Definition dict_row (fieldnames : list string) (row : row_dict)
  : result (list json) :=
  if forallb (fun kv => existsb (String.eqb (fst kv)) fieldnames) row then
    Ok (List.map (fun k => match Py.assoc k row with
                           | Some v => v
                           | None => JStr ""
                           end) fieldnames)
  else Raise ValueError.

Fixpoint write_dict_rows (out_path : string) (rows : list row_dict) : M unit :=
  match rows with
  | [] => ret tt
  | row :: rest =>
      cells <~ lift (dict_row channels_header row) ;;
      writerow out_path cells ;;;
      write_dict_rows out_path rest
  end.

(** [write_channels_csv] *)
Definition write_channels_csv (out_path : string) (rows : list row_dict)
  : M unit :=
  open_w out_path ;;;
  writerow out_path (List.map JStr channels_header) ;;;
  write_dict_rows out_path rows.

(** ** Pipeline driver *)

(** [sanitize_filename(channel_title)] on whatever the title turned out to
    be: [strip] is a method of strings only. *)
Definition sanitize_title (channel_title : json) : result string :=
  match channel_title with
  | JStr s => Ok (sanitize_filename s)
  | _ => Raise AttributeError
  end.

Definition videos_info_path (outdir filename : string) : string :=
  path_join outdir (filename ++ "_videosinfo.csv").

(** The dict that [main] appends to [channel_rows] for a channel *)
Definition channel_row (value : string) (channel : json) : result row_dict :=
  channel_snippet <- Py.get channel "snippet" (JObj []) ;;
  channel_stats <- Py.get channel "statistics" (JObj []) ;;
  c_id <- Py.get channel "id" (JStr "") ;;
  c_title <- Py.get channel_snippet "title" (JStr "") ;;
  c_description <- Py.get channel_snippet "description" (JStr "") ;;
  c_published_at <- Py.get channel_snippet "publishedAt" (JStr "") ;;
  c_country <- Py.get channel_snippet "country" (JStr "") ;;
  c_views <- Py.get channel_stats "viewCount" (JStr "") ;;
  c_subscribers <- Py.get channel_stats "subscriberCount" (JStr "") ;;
  c_videos <- Py.get channel_stats "videoCount" (JStr "") ;;
  Ok [("source_input", JStr value); ("channel_id", c_id);
      ("channel_title", c_title); ("channel_description", c_description);
      ("channel_published_at", c_published_at);
      ("channel_country", c_country); ("channel_view_count", c_views);
      ("channel_subscriber_count", c_subscribers);
      ("channel_video_count", c_videos)].

(** The uploads playlist and the file name that [main] reads off a channel *)
Definition channel_uploads (channel : json) : result json :=
  content <- Py.get channel "contentDetails" (JObj []) ;;
  related <- Py.get content "relatedPlaylists" (JObj []) ;;
  Py.get_none related "uploads".

Definition channel_filename (channel : json) : result string :=
  snippet <- Py.get channel "snippet" (JObj []) ;;
  channel_title <- Py.get snippet "title" (JStr "channel") ;;
  sanitize_title channel_title.

(** The body of the [try] statement of [main] for one input line *)
Definition process_channel (fuel : nat) (api_key outdir value : string)
  : M unit :=
  channel_id <~ resolve_channel_id api_key value ;;
  if negb (Py.truthy channel_id) then emit (EvStdout (MsgSkip value))
  else
    channel <~ get_channel_details api_key channel_id ;;
    row <~ lift (channel_row value channel) ;;
    append_row row ;;;
    uploads <~ lift (channel_uploads channel) ;;
    filename <~ lift (channel_filename channel) ;;
    let videos_info_path := videos_info_path outdir filename in
    videos <~ (if Py.truthy uploads then
                 video_ids <~ iter_uploads_playlist_video_ids
                                fuel api_key uploads ;;
                 match video_ids with
                 | [] => ret []
                 | _ :: _ => fetch_videos_details api_key video_ids
                 end
               else ret []) ;;
    write_videos_info videos_info_path channel videos value ;;;
    emit (EvStdout (MsgWroteVideos (length videos) videos_info_path)).

(** The [for value in channels] loop of [main] *)
Fixpoint main_loop (fuel : nat) (api_key outdir : string)
  (channels : list string) : M unit :=
  match channels with
  | [] => ret tt
  | value :: rest =>
      try_except (process_channel fuel api_key outdir value)
                 (fun exc => emit (EvStderr (MsgError value exc))) ;;;
      main_loop fuel api_key outdir rest
  end.

Definition channels_csv_path (outdir : string) : string :=
  path_join outdir "channels_metadata.csv".

(** [main] from its line 293 on: the loop over the channels, then the
    channel table; it returns the exit status. *)
Definition pipeline (fuel : nat) (api_key outdir : string)
  (channels : list string) : M Z :=
  reset_rows ;;;
  main_loop fuel api_key outdir channels ;;;
  rows <~ get_rows ;;
  write_channels_csv (channels_csv_path outdir) rows ;;;
  emit (EvStdout (MsgWroteChannels (length rows)
                                   (channels_csv_path outdir))) ;;;
  ret 0%Z.

(** [main], given the parsed arguments and the lines of the input file; it
    returns the exit status. The output directory exists ([os.makedirs]). *)
Definition main (fuel : nat) (api_key outdir : string) (input : list string)
  : M Z :=
  if Str.is_empty api_key then
    emit (EvStderr MsgNoApiKey) ;;; ret 2%Z
  else
    match read_channels input with
    | [] => emit (EvStdout MsgNoChannels) ;;; ret 1%Z
    | channels => pipeline fuel api_key outdir channels
    end.

End Script.

Arguments State {net} _ _ _ _.
Arguments st_net {net} _.
Arguments st_files {net} _.
Arguments st_trace {net} _.
Arguments channel_rows {net} _.
Arguments ret {net A} _ _.
Arguments bind {net A B} _ _ _.
Arguments lift {net A} _ _.
Arguments raise {net A} _ _.
Arguments try_except {net} _ _ _.
Arguments emit {net} _ _.
Arguments open_w {net} _ _.
Arguments writerow {net} _ _ _.
Arguments append_row {net} _ _.
Arguments reset_rows {net} _.
Arguments get_rows {net} _.
Arguments send {net} _ _ _.
Arguments http_get {net} _ _ _ _.
Arguments resolve_channel_id {net} _ _ _ _.
Arguments get_channel_details {net} _ _ _ _ _.
Arguments uploads_loop {net} _ _ _ _ _ _.
Arguments iter_uploads_playlist_video_ids {net} _ _ _ _ _.
Arguments fetch_batches {net} _ _ _ _ _.
Arguments fetch_videos_details {net} _ _ _ _.
Arguments write_video_rows {net} _ _ _ _ _ _ _.
Arguments write_videos_info {net} _ _ _ _ _ _.
Arguments write_dict_rows {net} _ _ _.
Arguments write_channels_csv {net} _ _ _.
Arguments process_channel {net} _ _ _ _ _ _ _.
Arguments main_loop {net} _ _ _ _ _ _ _.
Arguments pipeline {net} _ _ _ _ _ _ _.
Arguments main {net} _ _ _ _ _ _ _.

(** ** A mock platform

    One channel, [UCmockmockmockmockmock01], titled [My: Channel], whose
    uploads playlist [UU1] has two pages; the handle [someHandle] finds it,
    nothing else is found, and the user name [broken] makes the platform
    report an error. *)
Module Mock.

Definition channel_id : string := "UCmockmockmockmockmock01".

Definition channel : json :=
  JObj [("id", JStr channel_id);
        ("snippet", JObj [("title", JStr "My: Channel")]);
        ("contentDetails",
          JObj [("relatedPlaylists", JObj [("uploads", JStr "UU1")])])].

Definition item (vid : string) : json :=
  JObj [("contentDetails", JObj [("videoId", JStr vid)])].

Definition page1 : json :=
  JObj [("items", JArr [item "v1"; JObj [("contentDetails", JObj [])];
                        item "v2"]);
        ("nextPageToken", JStr "t2")].

Definition page2 : json := JObj [("items", JArr [item "v3"; JObj []])].

Definition video (vid : string) : json :=
  JObj [("id", JStr vid);
        ("snippet", JObj [("title", JStr "T"); ("tags", JArr [JStr "a"; JStr "b"; JStr "c"])]);
        ("statistics", JObj [("viewCount", JStr "7")])].

Definition param (k : string) (rq : request) : option json :=
  Py.assoc k (req_params rq).

Definition is_str (v : option json) (s : string) : bool :=
  match v with Some (JStr t) => String.eqb t s | _ => false end.

Definition answer (rq : request) : response :=
  if String.eqb (req_path rq) "channels" then
    if is_str (param "id" rq) channel_id then
      Decoded (JObj [("items", JArr [channel])])
    else if is_str (param "forUsername" rq) "broken" then
      Decoded (JObj [("error", JObj [("message", JStr "quota exceeded")])])
    else Decoded (JObj [("items", JArr [])])
  else if String.eqb (req_path rq) "search" then
    if is_str (param "q" rq) "someHandle" then
      Decoded (JObj [("items",
                 JArr [JObj [("snippet", JObj [("channelId", JStr channel_id)])]])])
    else Decoded (JObj [])
  else if String.eqb (req_path rq) "playlistItems" then
    if is_str (param "playlistId" rq) "UU1" then
      match param "pageToken" rq with
      | None => Decoded page1
      | Some tok => if is_str (Some tok) "t2" then Decoded page2
                    else NetFailure "HTTP Error 400"
      end
    else NetFailure "HTTP Error 404"
  else if String.eqb (req_path rq) "videos" then
    if is_str (param "id" rq) "v1,v2,v3" then
      Decoded (JObj [("items", JArr [video "v1"; video "v2"; video "v3"])])
    else InvalidJson "Expecting value: line 1 column 1 (char 0)"
  else NetFailure "HTTP Error 404".

(** The mock keeps no state. *)
Definition platform (rq : request) (n : unit) : response * unit :=
  (answer rq, n).

Definition repr (v : json) : string := "<object>".

Definition start : state unit := State tt ∅ [] [].

End Mock.

(** ** Vocabulary of the statements *)

(** The failure kinds that the specification names *)
Inductive failure_kind : Type :=
| TransportFailure
| ApiFailure
| ChannelNotFound.

(** A platform without state that gives the same answer to every request *)
Definition always (resp : response) (rq : request) (n : unit)
  : response * unit := (resp, n).

(** A decoded mapping without an error indicator *)
Definition clean (payload : json) : Prop :=
  exists fields, payload = JObj fields /\ Py.assoc "error" fields = None.

(** The items of a clean payload, when they form a list; a payload
    without the key has none. *)
Definition items_of (payload : json) : option (list json) :=
  match payload with
  | JObj fields =>
      match Py.assoc "items" fields with
      | Some (JArr items) => Some items
      | Some _ => None
      | None => Some []
      end
  | _ => None
  end.

(** The next-page cursor of a payload, the empty string when it has none *)
Definition cursor_of (payload : json) : json :=
  match payload with
  | JObj fields =>
      match Py.assoc "nextPageToken" fields with
      | Some tok => tok
      | None => JStr ""
      end
  | _ => JStr ""
  end.

(** The video ID of a playlist item, when the field is there *)
Definition present_id (item : json) : option json :=
  match item with
  | JObj fields =>
      match Py.assoc "contentDetails" fields with
      | Some (JObj content) => Py.assoc "videoId" content
      | _ => None
      end
  | _ => None
  end.

(** A playlist item: a mapping whose content details, if any, are a mapping *)
Definition is_item (item : json) : bool :=
  match item with
  | JObj fields =>
      match Py.assoc "contentDetails" fields with
      | Some (JObj _) | None => true
      | Some _ => false
      end
  | _ => false
  end.

(** An item whose video ID, if present, is a real one: not empty, not null *)
Definition has_real_id (item : json) : bool :=
  is_item item
  && match present_id item with Some vid => Py.truthy vid | None => true end.

(** What the enumerator yields from the items of one page *)
Definition yielded (items : list json) : list json :=
  List.filter Py.truthy (omap present_id items).


(** The request of the detail fetcher *)
Definition details_request (api_key : string) (channel_id : json) : request :=
  Request "channels" [("part", JStr "snippet,contentDetails,statistics");
                      ("id", channel_id); ("key", JStr api_key)].

(** The request of the batch fetcher for one batch of IDs, and the events
    of a run of batches: a request and a pause for each. *)
Definition videos_request (api_key : string) (batch : list string) : request :=
  Request "videos" (videos_params api_key (Str.join "," batch)).

Definition batch_events (api_key : string) (batches : list (list string))
  : list event :=
  flat_map (fun batch => [EvGet (videos_request api_key batch); EvSleep])
           batches.


(** A top-level field of a record, a field of one of its groups, and the
    cell that renders a field: the empty string when the field is absent. *)
Definition top (record : json) (name : string) : option json :=
  match record with
  | JObj fields => Py.assoc name fields
  | _ => None
  end.

Definition field (record : json) (group name : string) : option json :=
  match top record group with
  | Some (JObj fields) => Py.assoc name fields
  | _ => None
  end.

Definition cell (value : option json) : json :=
  match value with
  | Some v => v
  | None => JStr ""
  end.

(** A group of a record is a mapping when it is there. *)
Definition group_ok (record : json) (group : string) : bool :=
  match top record group with
  | Some (JObj _) | None => true
  | Some _ => false
  end.

(** A video record: a mapping whose three groups are mappings and whose
    tags, when present, are a list of strings. *)
Definition is_video (video : json) : bool :=
  match video with JObj _ => true | _ => false end
  && group_ok video "snippet" && group_ok video "statistics"
  && group_ok video "contentDetails"
  && match field video "snippet" "tags" with
     | None => true
     | Some (JArr tags) =>
         match Py.strings tags with Some _ => true | None => false end
     | Some _ => false
     end.

(** A channel record, as far as the video writer reads it *)
Definition is_channel (channel : json) : bool :=
  match channel with JObj _ => true | _ => false end
  && group_ok channel "snippet".

(** The tags cell: the tags joined by a bar, empty without tags *)
Definition tags_cell (video : json) : json :=
  match field video "snippet" "tags" with
  | Some (JArr tags) =>
      match Py.strings tags with
      | Some ss => JStr (Str.join "|" ss)
      | None => JStr ""
      end
  | _ => JStr ""
  end.

(** The row of a video in the video table *)
Definition video_cells (repr : json -> string) (source_input : string)
  (channel : json) (video : json) : list json :=
  [JStr source_input; cell (top channel "id");
   cell (field channel "snippet" "title");
   cell (top video "id");
   cell (field video "snippet" "title");
   cell (field video "snippet" "description");
   cell (field video "snippet" "publishedAt");
   tags_cell video;
   cell (field video "snippet" "categoryId");
   cell (field video "contentDetails" "duration");
   cell (field video "contentDetails" "definition");
   cell (field video "contentDetails" "caption");
   match field video "contentDetails" "licensedContent" with
   | Some v => JStr (Py.str repr v)
   | None => JStr ""
   end;
   cell (field video "contentDetails" "projection");
   cell (field video "statistics" "viewCount");
   cell (field video "statistics" "likeCount");
   cell (field video "statistics" "commentCount");
   cell (field video "statistics" "favoriteCount")].


(** The title under which [main] files a channel *)
Definition filing_title (channel : json) : json :=
  match field channel "snippet" "title" with
  | Some title => title
  | None => JStr "channel"
  end.

(** A row of the channel table has the nine keys of the header, in order. *)
Definition keyed (row : row_dict) : Prop :=
  List.map fst row = channels_header.

(** Events of the network: a request or a pause *)
Definition net_event (e : event) : Prop :=
  match e with
  | EvGet _ | EvSleep => True
  | _ => False
  end.

(** Events of the processing of a line: the only files opened are video
    tables of the output directory. *)
Definition line_event (outdir : string) (e : event) : Prop :=
  match e with
  | EvOpenW path => exists filename, path = videos_info_path outdir filename
  | _ => True
  end.


Section Vocabulary.

Context {net : Type}.
Variable platform : request -> net -> response * net.

Variable repr : json -> string.

(** How a piece of the script may move the state: [net_step] touches the
    network only; [io_step] may also write video tables and print;
    [line_step] may also append rows to [channel_rows]. *)
Definition net_step (st st' : state net) : Prop :=
  st_files st' = st_files st /\ channel_rows st' = channel_rows st
  /\ exists evs, st_trace st' = st_trace st ++ evs /\ Forall net_event evs.

Definition io_step (outdir : string) (st st' : state net) : Prop :=
  channel_rows st' = channel_rows st
  /\ exists evs,
      st_trace st' = st_trace st ++ evs /\ Forall (line_event outdir) evs.

Definition line_step (outdir : string) (st st' : state net) : Prop :=
  (exists rows,
      channel_rows st' = channel_rows st ++ rows /\ Forall keyed rows)
  /\ exists evs,
      st_trace st' = st_trace st ++ evs /\ Forall (line_event outdir) evs.

(** [m] moves every state along [R], whatever its outcome. *)
Definition respects (R : state net -> state net -> Prop) {A} (m : M net A)
  : Prop :=
  forall st, R st (snd (m st)).

(** The channel record that the resolver and the detail fetcher obtain for
    an input line, if they do. *)
Definition line_channel (api_key value : string) (st : state net)
  : option json :=
  match resolve_channel_id platform api_key value st with
  | (Ok channel_id, st1) =>
      if Py.truthy channel_id then
        match get_channel_details platform repr api_key channel_id st1 with
        | (Ok channel, _) => Some channel
        | _ => None
        end
      else None
  | _ => None
  end.

(** The row of the channel table for an input line: there is one when the
    channel of the line is resolved and its record is readable. *)
Definition line_row (api_key value : string) (st : state net)
  : option row_dict :=
  match line_channel api_key value st with
  | Some channel =>
      match channel_row value channel with
      | Ok row => Some row
      | _ => None
      end
  | None => None
  end.

(** What [process_channel] does once the row of the channel is appended *)
Definition export_videos (fuel : nat) (api_key outdir value : string)
  (channel : json) : M net unit :=
  bind (lift (channel_uploads channel)) (fun uploads =>
  bind (lift (channel_filename channel)) (fun filename =>
  bind (if Py.truthy uploads then
          bind (iter_uploads_playlist_video_ids platform fuel api_key uploads)
               (fun video_ids =>
                  match video_ids with
                  | [] => ret []
                  | _ :: _ => fetch_videos_details platform api_key video_ids
                  end)
        else ret [])
       (fun videos =>
  bind (write_videos_info repr (videos_info_path outdir filename) channel
                          videos value)
       (fun _ =>
  emit (EvStdout (MsgWroteVideos (length videos)
                                 (videos_info_path outdir filename))))))).

(** One pass of the loop of [main] over a line, exceptions caught *)
Definition guarded (fuel : nat) (api_key outdir value : string)
  : M net unit :=
  try_except (process_channel platform repr fuel api_key outdir value)
             (fun exc => emit (EvStderr (MsgError value exc))).



(** The state after one round trip *)
Definition sent (st : state net) (rq : request) (n' : net) : state net :=
  State n' (st_files st) (st_trace st ++ [EvGet rq]) (channel_rows st).

Definition playlist_request (api_key : string) (pid tok : json) : request :=
  Request "playlistItems" (playlist_params api_key pid tok).

(** [paged key pid n tok pages toks n']: asked for the playlist [pid] with
    the cursor [tok] in the network state [n], the platform serves the
    pages [pages] one after the other, each under the cursor the page
    before carried ([toks] lists these cursors, [tok] first), the last
    page carrying none, and is left in the state [n']. *)
Inductive paged (api_key : string) (pid : json)
  : net -> json -> list (list json) -> list json -> net -> Prop :=
| paged_last n tok payload n' items :
    platform (playlist_request api_key pid tok) n = (Decoded payload, n') ->
    clean payload -> items_of payload = Some items ->
    Py.truthy (cursor_of payload) = false ->
    paged api_key pid n tok [items] [tok] n'
| paged_more n tok payload n' items pages toks n'' :
    platform (playlist_request api_key pid tok) n = (Decoded payload, n') ->
    clean payload -> items_of payload = Some items ->
    Py.truthy (cursor_of payload) = true ->
    paged api_key pid n' (cursor_of payload) pages toks n'' ->
    paged api_key pid n tok (items :: pages) (tok :: toks) n''.

(** [served key n batches itemss n']: asked for the batches one after the
    other from the network state [n], the platform answers each with a
    clean payload, the item lists being [itemss], and is left in [n']. *)
Inductive served (api_key : string)
  : net -> list (list string) -> list (list json) -> net -> Prop :=
| served_nil n : served api_key n [] [] n
| served_cons n batch payload n' items batches itemss n'' :
    platform (videos_request api_key batch) n = (Decoded payload, n') ->
    clean payload -> items_of payload = Some items ->
    served api_key n' batches itemss n'' ->
    served api_key n (batch :: batches) (items :: itemss) n''.


End Vocabulary.

(** ** The classifier as the specification words it

    Seven rules over the trimmed input, tried in order; the first that
    applies gives the result. *)
Module Spec.

Definition rule : Type := string -> option (string * string).

Definition segment (kind lit : string) (cls : ascii -> bool) : rule :=
  fun v => match Re.search lit cls v with
           | Some token => Some (kind, token)
           | None => None
           end.

Definition classifier_rules : list rule :=
  [ (fun v => if Str.startswith v "UC" && (20 <=? String.length v)%nat
              then Some ("id", v) else None);
    segment "id" "youtube.com/channel/" Re.token_char;
    segment "username" "youtube.com/user/" Re.token_char;
    segment "query" "youtube.com/@" Re.handle_char;
    (fun v => if Str.startswith v "@" then Some ("query", Str.drop 1 v)
              else None);
    segment "query" "youtube.com/c/" Re.handle_char;
    (fun v => Some ("query", v)) ].

Fixpoint first_match (rules : list rule) (v : string)
  : option (string * string) :=
  match rules with
  | [] => None
  | r :: rest =>
      match r v with
      | Some out => Some out
      | None => first_match rest v
      end
  end.

End Spec.


(** ** Vocabulary of the further properties *)

(** A character other than the slash *)
Definition not_slash (c : ascii) : bool := negb (Ascii.eqb c "/").

(** What [os.path.join] puts before a relative name: nothing for an empty
    directory, the directory with one slash after it otherwise. *)
Definition dir_prefix (outdir : string) : string :=
  if Str.is_empty outdir then ""
  else match Str.last_char outdir with
       | Some "/"%char => outdir
       | _ => outdir ++ "/"
       end.

(** A line that [read_channels] keeps as it is: trimmed, not empty, not a
    comment. *)
Definition channel_line (value : string) : Prop :=
  Str.strip value = value /\ value <> ""
  /\ Str.startswith value "#" = false.


(** The characters of a string, each as a string of its own *)
Definition single_chars (s : string) : list string :=
  List.map (fun c => String c EmptyString) (list_ascii_of_string s).


(** A row of the channel table that only has keys of the header, and the
    cells [DictWriter] writes for it: the empty string under a key that the
    row lacks. *)
Definition within_header (row : row_dict) : Prop :=
  forall k, In k (List.map fst row) -> In k channels_header.

Definition dict_cells (row : row_dict) : list json :=
  List.map (fun k => cell (Py.assoc k row)) channels_header.

(** Platforms that misbehave: one that hands out a cursor with every page,
    and one that knows the mock channel and then goes offline. *)
Module Faulty.

Definition endless : request -> unit -> response * unit :=
  always (Decoded (JObj [("items", JArr [Mock.item "v"]);
                         ("nextPageToken", JStr "again")])).

Definition offline (rq : request) (n : unit) : response * unit :=
  if String.eqb (req_path rq) "channels"
  then (Decoded (JObj [("items", JArr [Mock.channel])]), n)
  else (NetFailure "timed out", n).

End Faulty.


(** The files a run may write: the video tables of the output directory,
    named after a sanitized title, and the channel table.
    [untouched may_change st st'] says that every other file is in [st']
    what it was in [st]. *)
Definition video_table (outdir path : string) : Prop :=
  exists title, path = videos_info_path outdir (sanitize_filename title).

Definition output_file (outdir path : string) : Prop :=
  video_table outdir path \/ path = channels_csv_path outdir.

Definition untouched {net} (may_change : string -> Prop) (st st' : state net)
  : Prop :=
  forall path, ~ may_change path -> st_files st' !! path = st_files st !! path.


(** ** Properties of the string helpers *)

Module StrFacts.


Lemma length_map f s : String.length (Str.map f s) = String.length s.
Proof. induction s as [|c r IH]; simpl; auto. Qed.

Lemma lstrip_cases s : Str.lstrip s = EmptyString \/ Str.starts_solid (Str.lstrip s).
Proof.
  induction s as [|c r IH]; simpl; auto.
  destruct (Str.is_space c) eqn:E; auto.
Qed.

Lemma rstrip_solid s : Str.starts_solid s -> Str.starts_solid (Str.rstrip s).
Proof.
  destruct s as [|c r]; simpl; auto.
  intros E; rewrite E; simpl; exact E.
Qed.

Lemma strip_cases s : Str.strip s = EmptyString \/ Str.starts_solid (Str.strip s).
Proof.
  unfold Str.strip.
  destruct (lstrip_cases s) as [E|H].
  - left; rewrite E; reflexivity.
  - right; apply rstrip_solid, H.
Qed.

Lemma lstrip_solid s : Str.starts_solid s -> Str.lstrip s = s.
Proof. destruct s as [|c r]; simpl; [tauto|]. intros E; rewrite E; auto. Qed.

Lemma rstrip_last s c :
  Str.last_char s = Some c -> Str.is_space c = false -> Str.rstrip s = s.
Proof.
  induction s as [|a r IH]; simpl; auto.
  intros HL Hc. destruct r as [|b r'].
  - injection HL as ->. simpl. rewrite Hc. reflexivity.
  - rewrite (IH HL Hc). simpl. rewrite andb_false_r. reflexivity.
Qed.

Lemma rstrip_idem s : Str.rstrip (Str.rstrip s) = Str.rstrip s.
Proof.
  induction s as [|c r IH]; simpl; auto.
  destruct (Str.is_space c && Str.is_empty (Str.rstrip r)) eqn:E; simpl; auto.
  rewrite IH, E. reflexivity.
Qed.

Lemma strip_idem s : Str.strip (Str.strip s) = Str.strip s.
Proof.
  unfold Str.strip.
  destruct (lstrip_cases s) as [E|H].
  - rewrite E; reflexivity.
  - rewrite (lstrip_solid _ (rstrip_solid _ H)). apply rstrip_idem.
Qed.

Lemma unsafe_not_space c : Re.unsafe_char c = true -> Str.is_space c = false.
Proof.
  unfold Re.unsafe_char, Str.is_space.
  generalize (N_of_ascii c); intros n H.
  repeat (apply orb_prop in H; destruct H as [H|H]);
    apply N.eqb_eq in H; subst n; reflexivity.
Qed.

Lemma sub_unsafe_solid s : Str.starts_solid s -> Str.starts_solid (Re.sub_unsafe s).
Proof.
  destruct s as [|c r]; simpl; auto.
  intros E. destruct (Re.unsafe_char c); auto.
Qed.

Lemma sub_spaces_solid s : Str.starts_solid s -> Str.starts_solid (Re.sub_spaces s).
Proof.
  destruct s as [|c r]; simpl; auto.
  intros E. unfold Re.sub_spaces; simpl. rewrite E. simpl. exact E.
Qed.

Lemma take_solid n s : Str.starts_solid s -> Str.starts_solid (Str.take (S n) s).
Proof. destruct s as [|c r]; simpl; auto. Qed.


(** The characters of the result of the two substitutions *)
Lemma sub_unsafe_clean s :
  Str.forallb (fun c => negb (Re.unsafe_char c)) (Re.sub_unsafe s) = true.
Proof.
  induction s as [|c r IH]; simpl; auto.
  unfold Re.sub_unsafe in IH. rewrite IH, andb_true_r.
  destruct (Re.unsafe_char c) eqn:E; [reflexivity | rewrite E; reflexivity].
Qed.

Lemma sub_spaces_clean b s :
  Str.forallb (fun c => negb (Re.unsafe_char c)) s = true ->
  Str.forallb (fun c => negb (Re.unsafe_char c)) (Re.sub_spaces_from b s) = true.
Proof.
  revert b; induction s as [|c r IH]; simpl; auto.
  intros b H. apply andb_prop in H as [Hc Hr].
  destruct (Str.is_space c); [destruct b|]; simpl; auto.
  rewrite Hc; simpl; auto.
Qed.

Lemma take_forallb p n s :
  Str.forallb p s = true -> Str.forallb p (Str.take n s) = true.
Proof.
  revert s; induction n as [|n IH]; intros [|c r]; simpl; auto.
  intros H. apply andb_prop in H as [Hc Hr]. rewrite Hc; simpl; auto.
Qed.

Lemma sub_spaces_collapsed b s :
  Str.collapsed_from b (Re.sub_spaces_from b s) = true.
Proof.
  revert b; induction s as [|c r IH]; intros b; simpl; auto.
  destruct (Str.is_space c) eqn:E.
  - destruct b; [apply IH|]. simpl. apply IH.
  - simpl. rewrite E. apply IH.
Qed.





Lemma take_all n s : String.length s <= n -> Str.take n s = s.
Proof.
  revert s; induction n as [|n IH]; intros [|c r]; simpl; auto; try lia.
  intros H. f_equal. apply IH. lia.
Qed.

Lemma length_append s t :
  String.length (s +:+ t) = String.length s + String.length t.
Proof.
  induction s as [|c r IH]; [reflexivity|].
  change (S (String.length (r +:+ t)) = S (String.length r + String.length t)).
  f_equal. exact IH.
Qed.

Lemma append_assoc s t u : (s +:+ t) +:+ u = s +:+ (t +:+ u).
Proof.
  induction s as [|c r IH]; [reflexivity|].
  change (String c ((r +:+ t) +:+ u) = String c (r +:+ (t +:+ u))).
  f_equal. exact IH.
Qed.

(** Two strings that are equal have the same tail of a given length. *)
Lemma append_tail_eq x y s t :
  String.length s = String.length t -> x +:+ s = y +:+ t -> s = t.
Proof.
  revert y; induction x as [|c x IH]; intros [|d y] Hlen H.
  - exact H.
  - apply (f_equal String.length) in H.
    change (String.length s = S (String.length (y +:+ t))) in H.
    rewrite length_append in H. lia.
  - apply (f_equal String.length) in H.
    change (S (String.length (x +:+ s)) = String.length t) in H.
    rewrite length_append in H. lia.
  - injection H as _ H. apply (IH y Hlen H).
Qed.

End StrFacts.

(** ** Filename sanitization *)



Example sanitize_filename_examples :
  sanitize_filename "  My: Channel / videos  " = "My_ Channel _ videos"
  /\ sanitize_filename "" = "channel"
  /\ String.length (sanitize_filename (Str.join "" (List.repeat "ab" 100)))
     = 120.
Proof. repeat split; vm_compute; reflexivity. Qed.

(** ** Identifier classifier *)

Lemma classifier_refines value :
  Spec.first_match Spec.classifier_rules (Str.strip value)
  = Some (extract_channel_identifier value).
Proof.
  unfold extract_channel_identifier, Spec.classifier_rules, Spec.segment.
  cbn [Spec.first_match].
  repeat match goal with
         | |- context [if ?b then _ else _] => destruct b; try reflexivity
         | |- context [Re.search ?l ?c ?v] =>
             destruct (Re.search l c v); try reflexivity
         end.
Qed.

Lemma classifier_kind value :
  In (fst (extract_channel_identifier value)) ["id"; "username"; "query"].
Proof.
  unfold extract_channel_identifier.
  repeat match goal with
         | |- context [if ?b then _ else _] => destruct b
         | |- context [Re.search ?l ?c ?v] => destruct (Re.search l c v)
         end; simpl; auto.
Qed.

Lemma classifier_channel_id t c :
  String.length t = 20 ->
  Str.last_char t = Some c -> Str.is_space c = false ->
  extract_channel_identifier ("UC" +:+ t) = ("id", "UC" +:+ t).
Proof.
  intros Hlen Hlast Hc.
  assert (Hs : Str.strip ("UC" +:+ t) = "UC" +:+ t).
  { unfold Str.strip. change (Str.lstrip ("UC" +:+ t)) with ("UC" +:+ t).
    apply (StrFacts.rstrip_last _ c); [|exact Hc].
    destruct t as [|a r]; [discriminate|exact Hlast]. }
  unfold extract_channel_identifier. rewrite Hs.
  change (Str.startswith ("UC" +:+ t) "UC") with (String.prefix "" t).
  assert (Hp : String.prefix "" t = true) by (destruct t; reflexivity).
  rewrite Hp. change (String.length ("UC" +:+ t)) with (S (S (String.length t))).
  rewrite Hlen. reflexivity.
Qed.

(** C3, as amended. The classifier is a total function: every string, the
    empty one included, gets the one pair that the first applicable of the
    seven rules gives on the trimmed input, its kind being id, username or
    query; a string made of UC and 20 characters the last of which is not
    white space is returned unchanged with kind id; and the handle
    [@someHandle] gives the query [someHandle]. *)
Theorem extract_channel_identifier_spec :
  (forall value,
      Spec.first_match Spec.classifier_rules (Str.strip value)
      = Some (extract_channel_identifier value))
  /\ (forall value,
      In (fst (extract_channel_identifier value)) ["id"; "username"; "query"])
  /\ (forall t c,
      String.length t = 20 ->
      Str.last_char t = Some c -> Str.is_space c = false ->
      extract_channel_identifier ("UC" +:+ t) = ("id", "UC" +:+ t))
  /\ extract_channel_identifier "@someHandle" = ("query", "someHandle")
  /\ extract_channel_identifier "" = ("query", "").
Proof.
  split; [exact classifier_refines|].
  split; [exact classifier_kind|].
  split; [exact classifier_channel_id|].
  split; reflexivity.
Qed.

Lemma extract_channel_identifier_spec_witness :
  extract_channel_identifier "UCabcdefghijklmnopqrst"
  = ("id", "UCabcdefghijklmnopqrst").
Proof.
  apply (proj1 (proj2 (proj2 extract_channel_identifier_spec))
           "abcdefghijklmnopqrst" "t"%char); reflexivity.
Defined.

Example extract_channel_identifier_examples :
  extract_channel_identifier " https://www.youtube.com/channel/UCabc-_1?x=1"
  = ("id", "UCabc-_1")
  /\ extract_channel_identifier "youtube.com/user/someone/videos"
     = ("username", "someone")
  /\ extract_channel_identifier "https://youtube.com/@foo.bar/about"
     = ("query", "foo.bar")
  /\ extract_channel_identifier "youtube.com/c/Custom" = ("query", "Custom")
  /\ extract_channel_identifier "some free text" = ("query", "some free text").
Proof. repeat split; vm_compute; reflexivity. Qed.

(** C3 as it was stated fails: UC followed by 20 spaces is trimmed to UC,
    which is too short for rule 1 and ends as a free-text query. *)
Lemma extract_channel_identifier_counterexample :
  ~ (forall t, String.length t = 20 ->
       extract_channel_identifier ("UC" +:+ t) = ("id", "UC" +:+ t)).
Proof.
  intros H. specialize (H "                    " eq_refl).
  vm_compute in H. discriminate H.
Qed.

(** ** The API client *)

Section Client.

Context {net : Type}.
Variable platform : request -> net -> response * net.

Lemma get_clean payload k default :
  clean payload ->
  exists v, Py.get payload k default = Ok v.
Proof. intros (f & -> & _). simpl. eauto. Qed.

Lemma http_get_net_failure path params (st : state net) descr n' :
  platform (Request path params) (st_net st) = (NetFailure descr, n') ->
  http_get platform path params st
  = (Raise (UrlopenError descr), sent st (Request path params) n').
Proof.
  intros H. unfold http_get, bind, send. rewrite H. reflexivity.
Qed.

Lemma http_get_invalid_json path params (st : state net) exc n' :
  platform (Request path params) (st_net st) = (InvalidJson exc, n') ->
  http_get platform path params st
  = (Raise (YouTubeApiError (JStr ("Invalid JSON from API: " +:+ exc))),
     sent st (Request path params) n').
Proof.
  intros H. unfold http_get, bind, send. rewrite H. reflexivity.
Qed.

Lemma http_get_error path params (st : state net) fields err n' :
  platform (Request path params) (st_net st) = (Decoded (JObj fields), n') ->
  Py.assoc "error" fields = Some (JObj err) ->
  http_get platform path params st
  = (Raise (YouTubeApiError
              (match Py.assoc "message" err with
               | Some msg => msg
               | None => JStr "API error"
               end)),
     sent st (Request path params) n').
Proof.
  intros H E. unfold http_get, bind, send. rewrite H.
  cbn. rewrite E. reflexivity.
Qed.

Lemma http_get_clean path params (st : state net) payload n' :
  platform (Request path params) (st_net st) = (Decoded payload, n') ->
  clean payload ->
  http_get platform path params st
  = (Ok payload, sent st (Request path params) n').
Proof.
  intros H (f & -> & E). unfold http_get, bind, send. rewrite H.
  cbn. rewrite E. reflexivity.
Qed.

(** C7, as amended. [http_get] lets the exception of the transport through
    when the network call cannot complete; raises [YouTubeApiError] with the
    message of the decoder when the body is not valid JSON; raises the same
    [YouTubeApiError] with the upstream message (or [API error] when the
    error object has none) when the decoded mapping has an error key; and
    returns the decoded mapping unchanged otherwise. In every case exactly
    one request has gone out. *)
Theorem http_get_spec path params (st : state net) resp n' :
  platform (Request path params) (st_net st) = (resp, n') ->
  snd (http_get platform path params st) = sent st (Request path params) n'
  /\ match resp with
     | NetFailure descr =>
         fst (http_get platform path params st) = Raise (UrlopenError descr)
     | InvalidJson exc =>
         fst (http_get platform path params st)
         = Raise (YouTubeApiError (JStr ("Invalid JSON from API: " +:+ exc)))
     | Decoded payload =>
         forall fields, payload = JObj fields ->
           match Py.assoc "error" fields with
           | Some (JObj err) =>
               fst (http_get platform path params st)
               = Raise (YouTubeApiError
                          (match Py.assoc "message" err with
                           | Some msg => msg
                           | None => JStr "API error"
                           end))
           | Some _ =>
               fst (http_get platform path params st) = Raise AttributeError
           | None =>
               fst (http_get platform path params st) = Ok payload
           end
     end.
Proof.
  intros H. split.
  - unfold http_get, bind, send. rewrite H.
    destruct resp as [d|e|payload]; try reflexivity.
    cbn. destruct (Py.contains payload "error") as [[|]| |]; try reflexivity.
    cbn. destruct (Py.getitem payload "error") as [err| |]; try reflexivity.
    cbn. destruct (Py.get err "message" (JStr "API error")); reflexivity.
  - destruct resp as [d|e|payload].
    + rewrite (http_get_net_failure _ _ _ _ _ H). reflexivity.
    + rewrite (http_get_invalid_json _ _ _ _ _ H). reflexivity.
    + intros fields ->.
      destruct (Py.assoc "error" fields) as [err|] eqn:E.
      * destruct err;
          try (unfold http_get, bind, send; rewrite H; cbn; rewrite E;
               reflexivity).
      * rewrite (http_get_clean _ _ _ _ _ H); [reflexivity|].
        exists fields. auto.
Qed.

End Client.

Lemma http_get_spec_witness :
  fst (http_get Mock.platform "channels" [("forUsername", JStr "broken")]
         Mock.start)
  = Raise (YouTubeApiError (JStr "quota exceeded")).
Proof.
  exact (proj2 (http_get_spec Mock.platform "channels"
                  [("forUsername", JStr "broken")] Mock.start _ tt eq_refl)
           _ eq_refl).
Defined.

(** C7 as it was stated fails: a body that is not JSON and an error reported
    by the platform can make [http_get] raise the very same exception, so
    that no reading of the failure tells a transport failure from an API
    failure. *)
Lemma http_get_counterexample :
  ~ exists kind_of : exn -> failure_kind,
      (forall platform path params (st : state unit) exc n',
          platform (Request path params) (st_net st) = (InvalidJson exc, n') ->
          exists e, fst (http_get platform path params st) = Raise e
                    /\ kind_of e = TransportFailure)
      /\ (forall platform path params (st : state unit) fields err n',
          platform (Request path params) (st_net st)
          = (Decoded (JObj fields), n') ->
          Py.assoc "error" fields = Some (JObj err) ->
          exists e, fst (http_get platform path params st) = Raise e
                    /\ kind_of e = ApiFailure).
Proof.
  intros (kind_of & Hjson & Hapi).
  destruct (Hjson (always (InvalidJson "x")) "videos" [] Mock.start "x" tt
              eq_refl) as (e1 & E1 & K1).
  destruct (Hapi (always (Decoded (JObj [("error",
                    JObj [("message", JStr "Invalid JSON from API: x")])])))
              "videos" [] Mock.start _ _ tt eq_refl eq_refl)
    as (e2 & E2 & K2).
  vm_compute in E1, E2. congruence.
Qed.

(** ** Resolver and detail fetcher *)

Lemma get_items payload items :
  items_of payload = Some items ->
  Py.get payload "items" (JArr []) = Ok (JArr items).
Proof.
  destruct payload as [| | | | |f]; try discriminate. simpl.
  destruct (Py.assoc "items" f) as [[]|]; try discriminate;
    intros [= ->]; reflexivity.
Qed.

Section Resolver.

Context {net : Type}.
Variable platform : request -> net -> response * net.
Variable repr : json -> string.

Lemma get_channel_details_eq api_key channel_id (st : state net) payload n' items :
  platform (details_request api_key channel_id) (st_net st)
  = (Decoded payload, n') ->
  clean payload -> items_of payload = Some items ->
  get_channel_details platform repr api_key channel_id st
  = (match items with
     | [] => Raise (YouTubeApiError
                      (JStr ("Channel not found: " +:+ Py.str repr channel_id)))
     | channel :: _ => Ok channel
     end, sent st (details_request api_key channel_id) n').
Proof.
  intros H Hc Hi. unfold get_channel_details, bind.
  rewrite (http_get_clean _ _ _ _ _ _ H Hc).
  unfold lift. rewrite (get_items _ _ Hi).
  destruct items; reflexivity.
Qed.

(** C6, as amended. When the result list for the requested channel ID is
    empty, [get_channel_details] fails with a [YouTubeApiError] whose
    message is [Channel not found: ] followed by the ID, after its one
    request; this is the exception type that [http_get] raises for an error
    reported by the platform, told apart by its message only. *)
Theorem get_channel_details_not_found api_key channel_id (st : state net)
    payload n' :
  platform (details_request api_key channel_id) (st_net st)
  = (Decoded payload, n') ->
  clean payload -> items_of payload = Some [] ->
  get_channel_details platform repr api_key channel_id st
  = (Raise (YouTubeApiError
              (JStr ("Channel not found: " +:+ Py.str repr channel_id))),
     sent st (details_request api_key channel_id) n').
Proof.
  intros H Hc Hi. apply (get_channel_details_eq _ _ _ _ _ _ H Hc Hi).
Qed.

(** C4. [resolve_channel_id] returns the value of an input of kind id as it
    is, the state untouched (no request); for kind username it asks the
    channels endpoint by user name, once, and returns [None] when the result
    list is empty, the ID of the first result otherwise; for kind query it
    asks the search endpoint for one result of type channel, once, and
    returns [None] when the result list is empty, the channel ID of the
    first result otherwise. *)
Theorem resolve_channel_id_spec api_key value (st : state net) :
  let kind := fst (extract_channel_identifier value) in
  let ident := snd (extract_channel_identifier value) in
  (kind = "id" ->
   resolve_channel_id platform api_key value st = (Ok (JStr ident), st))
  /\ (kind = "username" ->
      forall payload n' items,
        let rq := Request "channels"
                    [("part", JStr "id"); ("forUsername", JStr ident);
                     ("key", JStr api_key)] in
        platform rq (st_net st) = (Decoded payload, n') ->
        clean payload -> items_of payload = Some items ->
        resolve_channel_id platform api_key value st
        = (match items with
           | [] => Ok JNull
           | it :: _ => Py.getitem it "id"
           end, sent st rq n'))
  /\ (kind = "query" ->
      forall payload n' items,
        let rq := Request "search"
                    [("part", JStr "snippet"); ("q", JStr ident);
                     ("type", JStr "channel"); ("maxResults", JStr "1");
                     ("key", JStr api_key)] in
        platform rq (st_net st) = (Decoded payload, n') ->
        clean payload -> items_of payload = Some items ->
        resolve_channel_id platform api_key value st
        = (match items with
           | [] => Ok JNull
           | it :: _ =>
               sn <- Py.getitem it "snippet" ;; Py.getitem sn "channelId"
           end, sent st rq n')).
Proof.
  cbv zeta. unfold resolve_channel_id.
  destruct (extract_channel_identifier value) as [kind ident]. cbn [fst snd].
  split; [|split].
  - intros ->. reflexivity.
  - intros -> payload n' items H Hc Hi. cbn [String.eqb Ascii.eqb Bool.eqb].
    unfold bind. rewrite (http_get_clean _ _ _ _ _ _ H Hc).
    unfold lift. rewrite (get_items _ _ Hi).
    destruct items as [|it rest]; [reflexivity|].
    cbn. destruct (Py.getitem it "id"); reflexivity.
  - intros -> payload n' items H Hc Hi. cbn [String.eqb Ascii.eqb Bool.eqb].
    unfold bind. rewrite (http_get_clean _ _ _ _ _ _ H Hc).
    unfold lift. rewrite (get_items _ _ Hi).
    destruct items as [|it rest]; [reflexivity|].
    cbn. destruct (Py.getitem it "snippet") as [sn| |]; reflexivity.
Qed.

End Resolver.

Lemma get_channel_details_not_found_witness :
  fst (get_channel_details Mock.platform Mock.repr "KEY" (JStr "UCnobody")
         Mock.start)
  = Raise (YouTubeApiError (JStr "Channel not found: UCnobody")).
Proof.
  rewrite (get_channel_details_not_found Mock.platform Mock.repr "KEY"
             (JStr "UCnobody") Mock.start _ tt eq_refl
             (ex_intro _ _ (conj eq_refl eq_refl)) eq_refl).
  reflexivity.
Defined.

(** C6 as it was stated fails: an empty result list and an error reported by
    the platform can make [get_channel_details] raise the very same
    exception, so the failure for a missing channel is not of a type of its
    own. *)
Lemma get_channel_details_counterexample :
  ~ exists kind_of : exn -> failure_kind,
      (forall platform api_key channel_id (st : state unit) payload n',
          platform (details_request api_key channel_id) (st_net st)
          = (Decoded payload, n') ->
          clean payload -> items_of payload = Some [] ->
          exists e,
            fst (get_channel_details platform Mock.repr api_key channel_id st)
            = Raise e /\ kind_of e = ChannelNotFound)
      /\ (forall platform api_key channel_id (st : state unit) fields err n',
          platform (details_request api_key channel_id) (st_net st)
          = (Decoded (JObj fields), n') ->
          Py.assoc "error" fields = Some (JObj err) ->
          exists e,
            fst (get_channel_details platform Mock.repr api_key channel_id st)
            = Raise e /\ kind_of e = ApiFailure).
Proof.
  intros (kind_of & Hmissing & Hapi).
  destruct (Hmissing (always (Decoded (JObj [("items", JArr [])]))) "KEY"
              (JStr "UCx") Mock.start _ tt eq_refl
              (ex_intro _ _ (conj eq_refl eq_refl)) eq_refl)
    as (e1 & E1 & K1).
  destruct (Hapi (always (Decoded (JObj [("error",
                    JObj [("message", JStr "Channel not found: UCx")])])))
              "KEY" (JStr "UCx") Mock.start _ _ tt eq_refl eq_refl)
    as (e2 & E2 & K2).
  vm_compute in E1, E2. congruence.
Qed.

Lemma resolve_channel_id_spec_witness :
  resolve_channel_id Mock.platform "KEY" Mock.channel_id Mock.start
  = (Ok (JStr Mock.channel_id), Mock.start)
  /\ fst (resolve_channel_id Mock.platform "KEY" "youtube.com/user/gone"
            Mock.start) = Ok JNull
  /\ fst (resolve_channel_id Mock.platform "KEY" "@someHandle" Mock.start)
     = Ok (JStr Mock.channel_id)
  /\ fst (resolve_channel_id Mock.platform "KEY" "@unknownhandle999"
            Mock.start) = Ok JNull.
Proof.
  split; [|split; [|split]].
  - exact (proj1 (resolve_channel_id_spec Mock.platform "KEY" Mock.channel_id
                    Mock.start) eq_refl).
  - rewrite (proj1 (proj2 (resolve_channel_id_spec Mock.platform "KEY"
                             "youtube.com/user/gone" Mock.start))
               eq_refl _ tt [] eq_refl
               (ex_intro _ _ (conj eq_refl eq_refl)) eq_refl).
    reflexivity.
  - rewrite (proj2 (proj2 (resolve_channel_id_spec Mock.platform "KEY"
                             "@someHandle" Mock.start))
               eq_refl _ tt _ eq_refl
               (ex_intro _ _ (conj eq_refl eq_refl)) eq_refl).
    reflexivity.
  - rewrite (proj2 (proj2 (resolve_channel_id_spec Mock.platform "KEY"
                             "@unknownhandle999" Mock.start))
               eq_refl _ tt [] eq_refl
               (ex_intro _ _ (conj eq_refl eq_refl)) eq_refl).
    reflexivity.
Defined.

(** ** Upload enumerator *)

Lemma page_video_ids_items items :
  forallb is_item items = true -> page_video_ids items = Ok (yielded items).
Proof.
  induction items as [|item rest IH]; [reflexivity|].
  cbn [forallb]. intros H. apply andb_prop in H as [Hi Hr].
  cbn [page_video_ids]. rewrite (IH Hr). unfold yielded.
  destruct item as [| | | | |f]; try discriminate.
  cbn [omap list_omap present_id]. cbn [is_item] in Hi. cbn [Py.get].
  destruct (Py.assoc "contentDetails" f) as [[| | | | |cd]|];
    try discriminate; cbn.
  - destruct (Py.assoc "videoId" cd) as [vid|]; cbn; [|reflexivity].
    destruct (Py.truthy vid); reflexivity.
  - reflexivity.
Qed.

Lemma yielded_real items :
  forallb has_real_id items = true -> yielded items = omap present_id items.
Proof.
  unfold yielded. induction items as [|item rest IH]; [reflexivity|].
  cbn [forallb]. intros H. apply andb_prop in H as [Hi Hr].
  cbn [omap list_omap]. unfold has_real_id in Hi.
  apply andb_prop in Hi as [_ Hi].
  destruct (present_id item) as [vid|].
  - cbn [List.filter]. rewrite Hi. f_equal. apply IH, Hr.
  - apply IH, Hr.
Qed.

Lemma real_is_item items :
  forallb has_real_id items = true -> forallb is_item items = true.
Proof.
  induction items as [|item rest IH]; [reflexivity|].
  cbn [forallb]. intros H. apply andb_prop in H as [Hi Hr].
  unfold has_real_id in Hi. apply andb_prop in Hi as [Hi _].
  rewrite Hi, (IH Hr). reflexivity.
Qed.

Lemma get_cursor payload :
  clean payload ->
  Py.get payload "nextPageToken" (JStr "") = Ok (cursor_of payload).
Proof. intros (f & -> & _). reflexivity. Qed.

Section Enumerator.

Context {net : Type}.
Variable platform : request -> net -> response * net.

(** The loop goes through the pages that the platform serves, in order, and
    makes one request per page; items without a video ID, or with one that
    is empty or null, yield nothing. *)
Lemma uploads_loop_pages api_key pid n tok pages toks n' :
  paged platform api_key pid n tok pages toks n' ->
  Forall (fun page => forallb is_item page = true) pages ->
  forall fuel files trace rows,
    length pages <= fuel ->
    uploads_loop platform fuel api_key pid tok (State n files trace rows)
    = (Ok (concat (List.map yielded pages)),
       State n' files
             (trace ++ List.map (fun t => EvGet (playlist_request api_key pid t))
                                toks)
             rows).
Proof.
  induction 1 as [n tok payload n' items H Hc Hi Hn
                 |n tok payload n' items pages toks n'' H Hc Hi Hn Hrest IH];
    intros Hpages fuel files trace rows Hfuel;
    (destruct fuel as [|fuel]; [simpl in Hfuel; lia|]);
    inversion Hpages as [|? ? Hitems Hpages']; subst;
    cbn [uploads_loop]; unfold bind at 1;
    rewrite (http_get_clean platform "playlistItems" _
               (State n files trace rows) payload n' H Hc);
    unfold bind, lift; rewrite (get_items _ _ Hi); cbn [Py.iter];
    rewrite (page_video_ids_items _ Hitems), (get_cursor _ Hc), Hn;
    cbn [negb].
  - cbn. rewrite app_nil_r. reflexivity.
  - unfold sent. cbn [st_files st_trace channel_rows].
    rewrite (IH Hpages' fuel files _ rows ltac:(simpl in Hfuel; lia)).
    unfold ret. cbn [List.map concat]. rewrite <- app_assoc. reflexivity.
Qed.

(** C1. When the platform serves the pages of a playlist one after the
    other, each under the cursor of the page before and the last without a
    cursor, and every item either lacks the video ID field or carries a real
    ID, then the enumerator, given at least as many loop iterations as
    there are pages, terminates after one request per page and yields
    exactly the present IDs, page after page and in the order of each page;
    the items that lack the field are skipped without an error. *)
Theorem iter_uploads_playlist_video_ids_spec api_key pid (st : state net)
    pages toks n' fuel :
  paged platform api_key pid (st_net st) (JStr "") pages toks n' ->
  Forall (fun page => forallb has_real_id page = true) pages ->
  length pages <= fuel ->
  iter_uploads_playlist_video_ids platform fuel api_key pid st
  = (Ok (concat (List.map (omap present_id) pages)),
     State n' (st_files st)
           (st_trace st
            ++ List.map (fun t => EvGet (playlist_request api_key pid t)) toks)
           (channel_rows st))
  /\ length toks = length pages.
Proof.
  intros Hp Hreal Hfuel. split.
  - unfold iter_uploads_playlist_video_ids. destruct st as [n files trace rows].
    cbn [st_net st_files st_trace channel_rows] in *.
    rewrite (uploads_loop_pages _ _ _ _ _ _ _ Hp); [|  |exact Hfuel].
    + f_equal. f_equal. f_equal.
      clear Hp Hfuel. induction Hreal as [|page rest Hpage _ IH];
        [reflexivity|].
      cbn [List.map]. rewrite (yielded_real _ Hpage), IH. reflexivity.
    + eapply Forall_impl; [exact Hreal|]. intros page. apply real_is_item.
  - clear Hreal Hfuel. induction Hp; cbn [length]; auto.
Qed.

End Enumerator.

Lemma iter_uploads_playlist_video_ids_spec_witness :
  fst (iter_uploads_playlist_video_ids Mock.platform 2 "KEY" (JStr "UU1")
         Mock.start)
  = Ok [JStr "v1"; JStr "v2"; JStr "v3"].
Proof.
  assert (Hp : paged Mock.platform "KEY" (JStr "UU1") tt (JStr "")
                 [[Mock.item "v1"; JObj [("contentDetails", JObj [])];
                   Mock.item "v2"];
                  [Mock.item "v3"; JObj []]]
                 [JStr ""; JStr "t2"] tt).
  { apply (paged_more Mock.platform "KEY" (JStr "UU1") tt (JStr "")
             Mock.page1 tt _ _ _ tt eq_refl
             (ex_intro _ _ (conj eq_refl eq_refl)) eq_refl eq_refl).
    apply (paged_last Mock.platform "KEY" (JStr "UU1") tt (JStr "t2")
             Mock.page2 tt _ eq_refl
             (ex_intro _ _ (conj eq_refl eq_refl)) eq_refl eq_refl). }
  rewrite (proj1 (iter_uploads_playlist_video_ids_spec Mock.platform "KEY"
                    (JStr "UU1") Mock.start _ _ tt 2 Hp
                    ltac:(repeat constructor) ltac:(simpl; lia))).
  reflexivity.
Defined.

(** ** Batch video fetcher *)

Section Chunks.

Context {A : Type}.
Variables (items : list A) (size : nat).
Hypothesis size_pos : 0 < size.

Lemma chunks_concat_from fuel start :
  length items - start <= fuel ->
  concat (List.map (fun i => firstn size (skipn i items))
                    (range_from fuel start (length items) size))
  = skipn start items.
Proof.
  revert start; induction fuel as [|fuel IH]; intros start Hfuel.
  - cbn. symmetry. apply skipn_all2. lia.
  - cbn [range_from]. destruct (Nat.ltb_spec start (length items)) as [Hlt|Hge].
    + cbn [List.map concat]. rewrite IH by lia.
      rewrite Nat.add_comm, <- skipn_skipn. apply firstn_skipn.
    + cbn. symmetry. apply skipn_all2. lia.
Qed.

Lemma chunks_sizes_from fuel start :
  let batches := List.map (fun i => firstn size (skipn i items))
                    (range_from fuel start (length items) size) in
  Forall (fun b => 1 <= length b <= size) batches
  /\ (forall pre b post,
         batches = pre ++ b :: post -> post <> [] -> length b = size).
Proof.
  cbv zeta. revert start; induction fuel as [|fuel IH]; intros start.
  - cbn. split; [constructor|]. intros [|? ?] ? ? H; discriminate H.
  - cbn [range_from]. destruct (Nat.ltb_spec start (length items)) as [Hlt|Hge].
    + cbn [List.map]. destruct (IH (start + size)) as [IH1 IH2]. split.
      * constructor; [|exact IH1].
        rewrite length_firstn, length_skipn. lia.
      * intros [|x pre] b post E Hpost; cbn in E; injection E as E1 E2.
        -- subst b. rewrite length_firstn, length_skipn.
           destruct fuel as [|fuel']; [cbn in E2; congruence|].
           cbn [range_from] in E2.
           destruct (Nat.ltb_spec (start + size) (length items));
             [lia | cbn in E2; congruence].
        -- eapply IH2; eauto.
    + cbn. split; [constructor|]. intros [|? ?] ? ? H; discriminate H.
Qed.

End Chunks.

Lemma chunks_partition {A} (items : list A) (size : nat) :
  0 < size ->
  exists batches,
    chunks items size = Ok batches
    /\ concat batches = items
    /\ Forall (fun b => 1 <= length b <= size) batches
    /\ (forall pre b post,
           batches = pre ++ b :: post -> post <> [] -> length b = size).
Proof.
  intros Hpos. destruct size as [|k]; [lia|].
  eexists. split; [reflexivity|]. split; [|apply chunks_sizes_from; lia].
  rewrite (chunks_concat_from items (S k) Hpos) by lia. reflexivity.
Qed.

Lemma chunks_120 {A} (items : list A) batches :
  length items = 120 -> chunks items 50 = Ok batches ->
  List.map (@length A) batches = [50; 50; 20].
Proof.
  intros Hlen [= <-]. rewrite Hlen.
  change (range_from 120 0 120 50) with [0; 50; 100].
  cbn [List.map]. rewrite !length_firstn, !length_skipn, Hlen. reflexivity.
Qed.

Lemma chunks_map {A B} (f : A -> B) (items : list A) size batches :
  chunks items size = Ok batches ->
  chunks (List.map f items) size = Ok (List.map (List.map f) batches).
Proof.
  destruct size as [|k]; [discriminate|]. intros [= <-]. unfold chunks.
  rewrite length_map, List.map_map. f_equal. apply List.map_ext. intros i.
  rewrite skipn_map, firstn_map. reflexivity.
Qed.

Lemma strings_map ss : Py.strings (List.map JStr ss) = Some ss.
Proof. induction ss as [|s r IH]; cbn; [|rewrite IH]; reflexivity. Qed.

Section Fetcher.

Context {net : Type}.
Variable platform : request -> net -> response * net.

Lemma fetch_batches_served api_key n batches itemss n' :
  served platform api_key n batches itemss n' ->
  forall details files trace rows,
    fetch_batches platform api_key (List.map (List.map JStr) batches) details
                  (State n files trace rows)
    = (Ok (details ++ concat itemss),
       State n' files (trace ++ batch_events api_key batches) rows).
Proof.
  induction 1 as [n|n batch payload n' items batches itemss n'' H Hc Hi Hs IH];
    intros details files trace rows.
  - cbn. rewrite !app_nil_r. reflexivity.
  - cbn [List.map fetch_batches]. unfold bind at 1, lift at 1, Py.join.
    rewrite strings_map. unfold bind at 1.
    rewrite (http_get_clean platform "videos" _ (State n files trace rows)
               payload n' H Hc).
    unfold bind at 1, lift at 1. rewrite (get_items _ _ Hi).
    unfold bind at 1, lift at 1. cbn [Py.iter].
    unfold bind at 1, emit, sent. cbn [st_net st_files st_trace channel_rows].
    rewrite IH. cbn [concat batch_events flat_map].
    rewrite <- !app_assoc. reflexivity.
Qed.

Lemma fetch_batches_abort api_key n finished itemss n1 :
  served platform api_key n finished itemss n1 ->
  forall failing rest details files trace rows e st2,
    http_get platform "videos"
             (videos_params api_key (Str.join "," failing))
             (State n1 files (trace ++ batch_events api_key finished) rows)
    = (Raise e, st2) ->
    fetch_batches platform api_key
                  (List.map (List.map JStr) (finished ++ failing :: rest))
                  details (State n files trace rows)
    = (Raise e, st2).
Proof.
  induction 1 as [n|n batch payload n' items batches itemss n'' H Hc Hi Hs IH];
    intros failing rest details files trace rows e st2 Hfail.
  - cbn [app List.map fetch_batches]. unfold bind at 1, lift at 1, Py.join.
    rewrite strings_map. unfold bind at 1.
    cbn [batch_events flat_map] in Hfail. rewrite app_nil_r in Hfail.
    rewrite Hfail. reflexivity.
  - cbn [app List.map fetch_batches]. unfold bind at 1, lift at 1, Py.join.
    rewrite strings_map. unfold bind at 1.
    rewrite (http_get_clean platform "videos" _ (State n files trace rows)
               payload n' H Hc).
    unfold bind at 1, lift at 1. rewrite (get_items _ _ Hi).
    unfold bind at 1, lift at 1. cbn [Py.iter].
    unfold bind at 1, emit, sent. cbn [st_net st_files st_trace channel_rows].
    apply IH. cbn [batch_events flat_map app] in Hfail.
    rewrite <- !app_assoc. cbn [app]. exact Hfail.
Qed.

(** C2. The batch fetcher cuts any list of IDs into consecutive batches that
    put end to end give the list back, each of 1 to 50 IDs and all but the
    last of exactly 50 (a list of 120 IDs gives batches of 50, 50 and 20);
    it makes one request per batch, in order, each followed by a pause;
    when every batch is answered it returns the items of the answers put
    end to end in batch order; and when the request of a batch fails, the
    failure is the outcome and the state is the one the failing request
    left: the remaining batches are not requested. *)
Theorem fetch_videos_details_spec api_key (ids : list string) (st : state net) :
  exists batches,
    chunks ids 50 = Ok batches
    /\ concat batches = ids
    /\ Forall (fun b => 1 <= length b <= 50) batches
    /\ (forall pre b post,
           batches = pre ++ b :: post -> post <> [] -> length b = 50)
    /\ (length ids = 120 -> List.map (@length string) batches = [50; 50; 20])
    /\ (forall itemss n',
           served platform api_key (st_net st) batches itemss n' ->
           fetch_videos_details platform api_key (List.map JStr ids) st
           = (Ok (concat itemss),
              State n' (st_files st)
                    (st_trace st ++ batch_events api_key batches)
                    (channel_rows st)))
    /\ (forall finished failing rest itemss n1 e st2,
           batches = finished ++ failing :: rest ->
           served platform api_key (st_net st) finished itemss n1 ->
           http_get platform "videos"
                    (videos_params api_key (Str.join "," failing))
                    (State n1 (st_files st)
                           (st_trace st ++ batch_events api_key finished)
                           (channel_rows st))
           = (Raise e, st2) ->
           fetch_videos_details platform api_key (List.map JStr ids) st
           = (Raise e, st2)).
Proof.
  destruct (chunks_partition ids 50 ltac:(lia)) as (batches & Hc & H1 & H2 & H3).
  exists batches. repeat (split; [assumption|]).
  split; [intros Hlen; apply (chunks_120 ids); assumption|].
  destruct st as [n files trace rows].
  cbn [st_net st_files st_trace channel_rows].
  split.
  - intros itemss n' Hs. unfold fetch_videos_details, bind, lift.
    rewrite (chunks_map JStr _ _ _ Hc).
    apply (fetch_batches_served _ _ _ _ _ Hs []).
  - intros finished failing rest itemss n1 e st2 -> Hs Hfail.
    unfold fetch_videos_details, bind, lift.
    rewrite (chunks_map JStr _ _ _ Hc).
    apply (fetch_batches_abort _ _ _ _ _ Hs _ _ _ _ _ _ _ _ Hfail).
Qed.

End Fetcher.

Lemma fetch_videos_details_spec_witness :
  fst (fetch_videos_details Mock.platform "KEY"
         (List.map JStr ["v1"; "v2"; "v3"]) Mock.start)
  = Ok [Mock.video "v1"; Mock.video "v2"; Mock.video "v3"].
Proof.
  destruct (fetch_videos_details_spec Mock.platform "KEY" ["v1"; "v2"; "v3"]
              Mock.start) as (batches & Hc & _ & _ & _ & _ & Hok & _).
  vm_compute in Hc. injection Hc as <-.
  rewrite (Hok [[Mock.video "v1"; Mock.video "v2"; Mock.video "v3"]] tt).
  - reflexivity.
  - apply (served_cons Mock.platform "KEY" tt ["v1"; "v2"; "v3"] _ tt _ [] []
             tt eq_refl (ex_intro _ _ (conj eq_refl eq_refl)) eq_refl).
    apply served_nil.
Defined.

(** ** Tabular writers *)

Lemma format_tags_strings tags ss :
  Py.strings tags = Some ss ->
  format_tags (JArr tags) = Ok (Str.join "|" ss).
Proof.
  intros H. unfold format_tags. destruct tags as [|t r].
  - injection H as <-. reflexivity.
  - cbn [Py.truthy negb Py.iter rbind]. unfold Py.join. rewrite H. reflexivity.
Qed.

Section Writers.

Context {net : Type}.
Variable repr : json -> string.

Lemma format_tags_field sn :
  match Py.assoc "tags" sn with
  | None => true
  | Some (JArr tags) =>
      match Py.strings tags with Some _ => true | None => false end
  | Some _ => false
  end = true ->
  format_tags (match Py.assoc "tags" sn with Some v => v | None => JNull end)
  = Ok (match Py.assoc "tags" sn with
        | Some (JArr tags) =>
            match Py.strings tags with
            | Some ss => Str.join "|" ss
            | None => ""
            end
        | _ => ""
        end).
Proof.
  destruct (Py.assoc "tags" sn) as [[| | | | tags|]|]; try discriminate.
  - destruct (Py.strings tags) as [ss|] eqn:E; [|discriminate].
    intros _. apply format_tags_strings, E.
  - reflexivity.
Qed.

Lemma video_row_cells source_input channel video :
  is_video video = true ->
  video_row repr source_input (cell (top channel "id"))
            (cell (field channel "snippet" "title")) video
  = Ok (video_cells repr source_input channel video).
Proof.
  unfold is_video, group_ok, video_cells, tags_cell, field.
  destruct video as [| | | | |f]; try discriminate.
  unfold video_row. cbn [top Py.get Py.get_none rbind andb].
  destruct (Py.assoc "snippet" f) as [[| | | | |sn]|]; try discriminate;
    destruct (Py.assoc "statistics" f) as [[| | | | |stats]|];
    try discriminate;
    destruct (Py.assoc "contentDetails" f) as [[| | | | |content]|];
    try discriminate;
    cbn [top Py.get Py.get_none rbind andb cell Py.assoc];
    intros H;
    try (rewrite (format_tags_field _ H); clear H;
         destruct (Py.assoc "tags" sn) as [[| | | | tags|]|];
         try destruct (Py.strings tags));
    cbn [rbind format_tags Py.truthy negb];
    try destruct (Py.assoc "licensedContent" content);
    reflexivity.
Qed.

Lemma write_video_rows_files out_path source_input channel videos :
  Forall (fun video => is_video video = true) videos ->
  forall (n : net) files written trace rows,
    write_video_rows repr out_path source_input (cell (top channel "id"))
                     (cell (field channel "snippet" "title")) videos
                     (State n (<[out_path := written]> files) trace rows)
    = (Ok tt,
       State n (<[out_path :=
                    written
                    ++ List.map (video_cells repr source_input channel) videos]>
                  files) trace rows).
Proof.
  induction 1 as [|video rest Hv _ IH]; intros n files written trace rows.
  - cbn. rewrite app_nil_r. reflexivity.
  - cbn [write_video_rows]. unfold bind at 1, lift at 1.
    rewrite (video_row_cells _ _ _ Hv).
    unfold bind at 1, writerow. cbn [st_net st_files st_trace channel_rows].
    rewrite alter_insert_eq, IH. cbn [List.map].
    rewrite <- app_assoc. reflexivity.
Qed.

(** C8. For a channel record and video records that are mappings with
    mapping groups and string tags, whatever fields they lack,
    [write_videos_info] does not raise: it opens the file once and leaves in
    it the header followed by one row per video, in which every absent
    field is the empty string; tags a, b, c give the cell [a|b|c], and a
    record without tags an empty cell. *)
Theorem write_videos_info_spec out_path channel videos source_input
    (st : state net) :
  is_channel channel = true ->
  Forall (fun video => is_video video = true) videos ->
  write_videos_info repr out_path channel videos source_input st
  = (Ok tt,
     State (st_net st)
           (<[out_path :=
                videos_header
                :: List.map (video_cells repr source_input channel) videos]>
              (st_files st))
           (st_trace st ++ [EvOpenW out_path]) (channel_rows st))
  /\ (forall video tags,
         field video "snippet" "tags" = Some (JArr tags) ->
         Py.strings tags = Some ["a"; "b"; "c"] ->
         nth_error (video_cells repr source_input channel video) 7
         = Some (JStr "a|b|c"))
  /\ (forall video,
         field video "snippet" "tags" = None ->
         nth_error (video_cells repr source_input channel video) 7
         = Some (JStr ""))
  /\ video_cells repr source_input channel (JObj [])
     = [JStr source_input; cell (top channel "id");
        cell (field channel "snippet" "title")]
       ++ List.repeat (JStr "") 15
  /\ format_tags (JArr [JStr "a"; JStr "b"; JStr "c"]) = Ok "a|b|c"
  /\ format_tags JNull = Ok "".
Proof.
  intros Hch Hvs. split; [|split; [|split; [|split; [|split]]]];
    try reflexivity.
  - unfold write_videos_info.
    assert (E : exists cid snippet ctitle,
               Py.get channel "id" (JStr "") = Ok cid
               /\ Py.get channel "snippet" (JObj []) = Ok snippet
               /\ Py.get snippet "title" (JStr "") = Ok ctitle
               /\ cid = cell (top channel "id")
               /\ ctitle = cell (field channel "snippet" "title")).
    { unfold is_channel, group_ok, field in *.
      destruct channel as [| | | | |f]; try discriminate.
      cbn [top Py.get andb] in *.
      destruct (Py.assoc "snippet" f) as [[| | | | |sn]|]; try discriminate;
        cbn [Py.get Py.assoc cell]; do 3 eexists;
        repeat split; try reflexivity;
        destruct (Py.assoc "id" f); reflexivity. }
    destruct E as (cid & snippet & ctitle & E1 & E2 & E3 & -> & ->).
    unfold bind at 1, lift at 1. rewrite E1.
    unfold bind at 1, lift at 1. rewrite E2.
    unfold bind at 1, lift at 1. rewrite E3.
    unfold bind at 1, open_w. unfold bind at 1, writerow.
    cbn [st_net st_files st_trace channel_rows].
    rewrite alter_insert_eq.
    rewrite (write_video_rows_files _ _ _ _ Hvs). reflexivity.
  - intros video tags Hf Hs. unfold video_cells, tags_cell.
    rewrite Hf, Hs. reflexivity.
  - intros video Hf. unfold video_cells, tags_cell. rewrite Hf. reflexivity.
Qed.

End Writers.

Lemma write_videos_info_spec_witness :
  snd (write_videos_info Mock.repr "out/x.csv" Mock.channel
         [Mock.video "v1"; JObj []] "@someHandle" Mock.start)
  = State tt
      (<["out/x.csv" :=
           [videos_header;
            [JStr "@someHandle"; JStr Mock.channel_id; JStr "My: Channel";
             JStr "v1"; JStr "T"; JStr ""; JStr ""; JStr "a|b|c"; JStr "";
             JStr ""; JStr ""; JStr ""; JStr ""; JStr ""; JStr "7"; JStr "";
             JStr ""; JStr ""];
            [JStr "@someHandle"; JStr Mock.channel_id; JStr "My: Channel"]
            ++ List.repeat (JStr "") 15]]> ∅)
      [EvOpenW "out/x.csv"] [].
Proof.
  rewrite (proj1 (write_videos_info_spec (net := unit) Mock.repr "out/x.csv"
                    Mock.channel [Mock.video "v1"; JObj []] "@someHandle"
                    Mock.start eq_refl
                    ltac:(repeat constructor))).
  reflexivity.
Defined.

(** ** How the pieces of the script move the state *)

Section Respects.

Context {net : Type}.
Variable R : state net -> state net -> Prop.
Hypothesis R_refl : forall st, R st st.
Hypothesis R_trans : forall a b c, R a b -> R b c -> R a c.

Lemma respects_ret {A} (a : A) : respects R (ret a).
Proof. intros st. apply R_refl. Qed.

Lemma respects_lift {A} (r : result A) : respects R (lift r).
Proof. intros st. apply R_refl. Qed.

Lemma respects_bind {A B} (m : M net A) (k : A -> M net B) :
  respects R m -> (forall a, respects R (k a)) -> respects R (bind m k).
Proof.
  intros Hm Hk st. unfold bind. specialize (Hm st).
  destruct (m st) as [[a|e|] st1]; cbn [snd] in *; auto.
  eapply R_trans; [exact Hm|apply Hk].
Qed.

Lemma respects_bind_lift {A B} (r : result A) (k : A -> M net B) :
  (forall a, r = Ok a -> respects R (k a)) -> respects R (bind (lift r) k).
Proof.
  intros Hk st. unfold bind, lift. destruct r as [a|e|]; cbn [snd]; auto.
  apply Hk. reflexivity.
Qed.

Lemma respects_try_except body handler :
  respects R body -> (forall e, respects R (handler e)) ->
  respects R (try_except body handler).
Proof.
  intros Hb Hh st. unfold try_except. specialize (Hb st).
  destruct (body st) as [[a|e|] st1]; cbn [snd] in *; auto.
  eapply R_trans; [exact Hb|apply Hh].
Qed.

End Respects.

Lemma bind_ok {net A B} (m : M net A) (k : A -> M net B) st b st' :
  bind m k st = (Ok b, st') ->
  exists a st1, m st = (Ok a, st1) /\ k a st1 = (Ok b, st').
Proof.
  unfold bind. destruct (m st) as [[a|e|] st1]; try discriminate. eauto.
Qed.

Lemma rbind_ok {A B} (r : result A) (k : A -> result B) b :
  rbind r k = Ok b -> exists a, r = Ok a /\ k a = Ok b.
Proof. destruct r; try discriminate. eauto. Qed.

Section Steps.

Context {net : Type}.
Variable platform : request -> net -> response * net.
Variable repr : json -> string.

Lemma net_step_refl (st : state net) : net_step st st.
Proof.
  repeat split. exists []. rewrite app_nil_r. auto.
Qed.

Lemma net_step_trans (a b c : state net) :
  net_step a b -> net_step b c -> net_step a c.
Proof.
  intros (F1 & C1 & e1 & T1 & N1) (F2 & C2 & e2 & T2 & N2).
  repeat split; try congruence.
  exists (e1 ++ e2). rewrite T2, T1, app_assoc. split; [reflexivity|].
  apply Forall_app; auto.
Qed.

Lemma io_step_refl outdir (st : state net) : io_step outdir st st.
Proof. split; [reflexivity|]. exists []. rewrite app_nil_r. auto. Qed.

Lemma io_step_trans outdir (a b c : state net) :
  io_step outdir a b -> io_step outdir b c -> io_step outdir a c.
Proof.
  intros (C1 & e1 & T1 & N1) (C2 & e2 & T2 & N2).
  split; [congruence|].
  exists (e1 ++ e2). rewrite T2, T1, app_assoc. split; [reflexivity|].
  apply Forall_app; auto.
Qed.

Lemma line_step_refl outdir (st : state net) : line_step outdir st st.
Proof.
  split; [exists []|exists []]; rewrite app_nil_r; auto.
Qed.

Lemma line_step_trans outdir (a b c : state net) :
  line_step outdir a b -> line_step outdir b c -> line_step outdir a c.
Proof.
  intros ((r1 & C1 & K1) & e1 & T1 & N1) ((r2 & C2 & K2) & e2 & T2 & N2).
  split.
  - exists (r1 ++ r2). rewrite C2, C1, app_assoc. split; [reflexivity|].
    apply Forall_app; auto.
  - exists (e1 ++ e2). rewrite T2, T1, app_assoc. split; [reflexivity|].
    apply Forall_app; auto.
Qed.

Lemma net_io_step outdir (a b : state net) : net_step a b -> io_step outdir a b.
Proof.
  intros (_ & C & evs & T & N). split; [exact C|]. exists evs.
  split; [exact T|]. eapply Forall_impl; [exact N|].
  intros [] H; cbn in *; auto; contradiction.
Qed.


Lemma respects_weaken (R S : state net -> state net -> Prop) {A} (m : M net A) :
  (forall a b, R a b -> S a b) -> respects R m -> respects S m.
Proof. intros H Hm st. apply H, Hm. Qed.

Lemma http_get_net path params : respects net_step (http_get platform path params).
Proof.
  intros st. unfold http_get, bind, send.
  destruct (platform (Request path params) (st_net st)) as [resp n'].
  assert (Hs : net_step st (State n' (st_files st)
                              (st_trace st ++ [EvGet (Request path params)])
                              (channel_rows st))).
  { repeat split. eexists. split; [reflexivity|]. repeat constructor. }
  destruct resp as [d|e|payload]; cbn; try exact Hs.
  destruct (Py.contains payload "error") as [[|]| |]; cbn; try exact Hs.
  destruct (Py.getitem payload "error") as [err| |]; cbn; try exact Hs.
  destruct (Py.get err "message" (JStr "API error")); cbn; exact Hs.
Qed.

Lemma emit_sleep_net : respects (net := net) net_step (emit EvSleep).
Proof.
  intros st. repeat split. eexists. split; [reflexivity|]. repeat constructor.
Qed.

End Steps.

(** Composition of steps, for the three kinds of step *)
Ltac step_bind :=
  first [ apply (respects_bind _ net_step_trans)
        | apply (respects_bind _ (io_step_trans _))
        | apply (respects_bind _ (line_step_trans _)) ].

Ltac step_pure :=
  first [ apply (respects_lift _ net_step_refl)
        | apply (respects_ret _ net_step_refl)
        | apply (respects_lift _ (io_step_refl _))
        | apply (respects_ret _ (io_step_refl _))
        | apply (respects_lift _ (line_step_refl _))
        | apply (respects_ret _ (line_step_refl _)) ].

Section NetSteps.

Context {net : Type}.
Variable platform : request -> net -> response * net.
Variable repr : json -> string.

Lemma resolve_channel_id_net api_key value :
  respects net_step (resolve_channel_id platform api_key value).
Proof.
  unfold resolve_channel_id.
  destruct (extract_channel_identifier value) as [kind ident].
  destruct (String.eqb kind "id"); [step_pure|].
  destruct (String.eqb kind "username").
  - step_bind; [apply http_get_net|]. intros payload.
    step_bind; [step_pure|]. intros items.
    destruct (Py.truthy items); [|step_pure].
    step_bind; [step_pure|]. intros it. step_pure.
  - step_bind; [apply http_get_net|]. intros payload.
    step_bind; [step_pure|]. intros items.
    destruct (negb (Py.truthy items)); [step_pure|].
    step_bind; [step_pure|]. intros it.
    step_bind; [step_pure|]. intros sn. step_pure.
Qed.

Lemma get_channel_details_net api_key channel_id :
  respects net_step (get_channel_details platform repr api_key channel_id).
Proof.
  unfold get_channel_details.
  step_bind; [apply http_get_net|]. intros payload.
  step_bind; [step_pure|]. intros items.
  destruct (negb (Py.truthy items)); step_pure.
Qed.

Lemma uploads_loop_net fuel api_key pid tok :
  respects net_step (uploads_loop platform fuel api_key pid tok).
Proof.
  revert tok; induction fuel as [|fuel IH]; intros tok; cbn [uploads_loop].
  - step_pure.
  - step_bind; [apply http_get_net|]. intros payload.
    step_bind; [step_pure|]. intros items.
    step_bind; [step_pure|]. intros items'.
    step_bind; [step_pure|]. intros vids.
    step_bind; [step_pure|]. intros next.
    destruct (negb (Py.truthy next)); [step_pure|].
    step_bind; [apply IH|]. intros more. step_pure.
Qed.

Lemma fetch_batches_net api_key batches details :
  respects net_step (fetch_batches platform api_key batches details).
Proof.
  revert details; induction batches as [|batch rest IH]; intros details;
    cbn [fetch_batches].
  - step_pure.
  - step_bind; [step_pure|]. intros ids.
    step_bind; [apply http_get_net|]. intros payload.
    step_bind; [step_pure|]. intros items.
    step_bind; [step_pure|]. intros items'.
    step_bind; [apply emit_sleep_net|]. intros _. apply IH.
Qed.

Lemma fetch_videos_details_net api_key video_ids :
  respects net_step (fetch_videos_details platform api_key video_ids).
Proof.
  unfold fetch_videos_details.
  step_bind; [step_pure|]. intros batches. apply fetch_batches_net.
Qed.

End NetSteps.

(** ** Pipeline driver *)


Lemma path_join_suffix a b : exists pre, path_join a b = pre +:+ b.
Proof.
  unfold path_join. destruct (Str.startswith b "/"); [exists ""; reflexivity|].
  destruct (Str.is_empty a); [exists ""; reflexivity|].
  destruct (Str.last_char a) as [c|].
  - destruct (Ascii.eqb_spec c "/") as [->|Hne].
    + exists a. reflexivity.
    + exists (a +:+ "/").
      replace (match c with "/"%char => a +:+ b | _ => a +:+ "/" +:+ b end)
        with (a +:+ "/" +:+ b).
      * symmetry. apply StrFacts.append_assoc.
      * destruct c as [[] [] [] [] [] [] [] []]; try reflexivity.
        contradiction Hne. reflexivity.
  - exists (a +:+ "/"). symmetry. apply StrFacts.append_assoc.
Qed.



Lemma video_row_source repr source_input channel_id channel_title video row :
  video_row repr source_input channel_id channel_title video = Ok row ->
  head row = Some (JStr source_input).
Proof.
  unfold video_row. intros H.
  repeat (apply rbind_ok in H as (? & _ & H)).
  injection H as <-. reflexivity.
Qed.

Lemma channel_filename_title channel filename title :
  channel_filename channel = Ok filename ->
  filing_title channel = JStr title ->
  filename = sanitize_filename title.
Proof.
  unfold channel_filename, filing_title, field.
  destruct channel as [| | | | |f]; try discriminate.
  cbn [top Py.get rbind].
  destruct (Py.assoc "snippet" f) as [[| | | | |sn]|]; try discriminate;
    cbn [Py.get rbind Py.assoc].
  - destruct (Py.assoc "title" sn) as [t|]; intros H E; subst;
      cbn [sanitize_title] in H; congruence.
  - intros H [= <-]. cbn [sanitize_title] in H. congruence.
Qed.

Section Driver.

Context {net : Type}.
Variable platform : request -> net -> response * net.
Variable repr : json -> string.

Lemma emit_io outdir e :
  line_event outdir e -> respects (net := net) (io_step outdir) (emit e).
Proof.
  intros He st. split; [reflexivity|]. eexists. split; [reflexivity|].
  repeat constructor. exact He.
Qed.

Lemma writerow_io outdir path row :
  respects (net := net) (io_step outdir) (writerow path row).
Proof.
  intros st. split; [reflexivity|]. exists []. rewrite app_nil_r. auto.
Qed.

Lemma write_videos_info_io outdir filename channel videos source_input :
  respects (net := net) (io_step outdir)
    (write_videos_info repr (videos_info_path outdir filename) channel videos
                       source_input).
Proof.
  unfold write_videos_info.
  step_bind; [step_pure|]. intros channel_id.
  step_bind; [step_pure|]. intros snippet.
  step_bind; [step_pure|]. intros channel_title.
  step_bind.
  { intros st. split; [reflexivity|]. eexists. split; [reflexivity|].
    repeat constructor. cbn. eauto. }
  intros _. step_bind; [apply writerow_io|]. intros _.
  induction videos as [|video rest IH]; cbn [write_video_rows].
  - step_pure.
  - step_bind; [step_pure|]. intros row.
    step_bind; [apply writerow_io|]. intros _. exact IH.
Qed.

Lemma process_channel_eq fuel api_key outdir value :
  process_channel platform repr fuel api_key outdir value
  = bind (resolve_channel_id platform api_key value) (fun channel_id =>
      if negb (Py.truthy channel_id) then emit (EvStdout (MsgSkip value))
      else
        bind (get_channel_details platform repr api_key channel_id)
             (fun channel =>
        bind (lift (channel_row value channel)) (fun row =>
        bind (append_row row) (fun _ =>
        export_videos platform repr fuel api_key outdir value channel)))).
Proof. reflexivity. Qed.

Lemma gather_videos_net fuel api_key uploads :
  respects net_step
    (if Py.truthy uploads then
       bind (iter_uploads_playlist_video_ids platform fuel api_key uploads)
            (fun video_ids =>
               match video_ids with
               | [] => ret []
               | _ :: _ => fetch_videos_details platform api_key video_ids
               end)
     else ret []).
Proof.
  destruct (Py.truthy uploads); [|step_pure].
  step_bind; [apply uploads_loop_net|]. intros [|v vs]; [step_pure|].
  apply fetch_videos_details_net.
Qed.

Lemma export_videos_io fuel api_key outdir value channel :
  respects (io_step outdir)
    (export_videos platform repr fuel api_key outdir value channel).
Proof.
  unfold export_videos.
  step_bind; [step_pure|]. intros uploads.
  step_bind; [step_pure|]. intros filename.
  step_bind.
  { eapply respects_weaken; [apply net_io_step|apply gather_videos_net]. }
  intros videos. step_bind; [apply write_videos_info_io|]. intros _.
  apply emit_io. exact I.
Qed.




Lemma main_loop_cons fuel api_key outdir value rest :
  main_loop platform repr fuel api_key outdir (value :: rest)
  = bind (guarded platform repr fuel api_key outdir value)
         (fun _ => main_loop platform repr fuel api_key outdir rest).
Proof. reflexivity. Qed.




Lemma process_channel_rows fuel api_key outdir value (st : state net) :
  channel_rows (snd (process_channel platform repr fuel api_key outdir value st))
  = channel_rows st
    ++ match line_row platform repr api_key value st with
       | Some row => [row]
       | None => []
       end.
Proof.
  rewrite process_channel_eq. unfold line_row, line_channel, bind at 1.
  destruct (resolve_channel_id_net platform api_key value st) as (_ & C1 & _).
  destruct (resolve_channel_id platform api_key value st)
    as [[channel_id|e|] st1]; cbn [snd] in *;
    try (rewrite app_nil_r; exact C1).
  destruct (Py.truthy channel_id); cbn [negb].
  2: { cbn. rewrite app_nil_r. exact C1. }
  unfold bind at 1.
  destruct (get_channel_details_net platform repr api_key channel_id st1)
    as (_ & C2 & _).
  destruct (get_channel_details platform repr api_key channel_id st1)
    as [[channel|e|] st2]; cbn [snd] in *;
    try (rewrite app_nil_r; congruence).
  unfold bind at 1, lift.
  destruct (channel_row value channel) as [row|e|]; cbn [snd];
    try (rewrite app_nil_r; congruence).
  unfold bind at 1, append_row.
  match goal with
  | |- context [export_videos _ _ ?f ?k ?o ?v ?c ?s] =>
      destruct (export_videos_io f k o v c s) as (C3 & _)
  end.
  rewrite C3. cbn [channel_rows]. congruence.
Qed.





Lemma write_video_rows_ok out_path source_input channel_id channel_title
    videos :
  forall (n : net) files written trace crows st',
    write_video_rows repr out_path source_input channel_id channel_title
                     videos
                     (State n (<[out_path := written]> files) trace crows)
    = (Ok tt, st') ->
    exists rows,
      Forall (fun row => head row = Some (JStr source_input)) rows
      /\ length rows = length videos
      /\ st_files st' = <[out_path := written ++ rows]> files.
Proof.
  induction videos as [|video rest IH];
    intros n files written trace crows st' H.
  - cbn in H. injection H as <-. exists []. rewrite app_nil_r. auto.
  - cbn [write_video_rows] in H.
    apply bind_ok in H as (row & st1 & Hrow & H).
    unfold lift in Hrow. injection Hrow as Hrow <-.
    apply bind_ok in H as ([] & st2 & Hw & H).
    unfold writerow in Hw. cbn [st_net st_files st_trace channel_rows] in Hw.
    injection Hw as <-. rewrite alter_insert_eq in H.
    apply IH in H as (rows & Hsrc & Hlen & Hfiles).
    exists (row :: rows). split; [|split].
    + constructor; [|exact Hsrc]. apply (video_row_source _ _ _ _ _ _ Hrow).
    + cbn. congruence.
    + rewrite Hfiles, <- app_assoc. reflexivity.
Qed.

Lemma write_videos_info_ok out_path channel videos source_input
    (st st' : state net) :
  write_videos_info repr out_path channel videos source_input st
  = (Ok tt, st') ->
  exists rows,
    Forall (fun row => head row = Some (JStr source_input)) rows
    /\ length rows = length videos
    /\ st_files st' = <[out_path := videos_header :: rows]> (st_files st).
Proof.
  unfold write_videos_info. intros H.
  apply bind_ok in H as (cid & st1 & H1 & H).
  unfold lift in H1. injection H1 as _ <-.
  apply bind_ok in H as (sn & st1 & H1 & H).
  unfold lift in H1. injection H1 as _ <-.
  apply bind_ok in H as (ctitle & st1 & H1 & H).
  unfold lift in H1. injection H1 as _ <-.
  apply bind_ok in H as ([] & st1 & H1 & H).
  unfold open_w in H1. injection H1 as <-.
  apply bind_ok in H as ([] & st2 & H2 & H).
  unfold writerow in H2. cbn [st_net st_files st_trace channel_rows] in H2.
  injection H2 as <-. rewrite alter_insert_eq in H.
  apply write_video_rows_ok in H. exact H.
Qed.

(** A line that is processed to its end has had its channel resolved and
    has replaced the video table of that channel by its own rows. *)
Lemma process_channel_ok fuel api_key outdir value (st st' : state net)
    channel :
  line_channel platform repr api_key value st = Some channel ->
  process_channel platform repr fuel api_key outdir value st = (Ok tt, st') ->
  exists filename rows,
    channel_filename channel = Ok filename
    /\ Forall (fun row => head row = Some (JStr value)) rows
    /\ st_files st'
       = <[videos_info_path outdir filename := videos_header :: rows]>
           (st_files st).
Proof.
  unfold line_channel. rewrite process_channel_eq. intros Hc H.
  apply bind_ok in H as (channel_id & st1 & H1 & H).
  destruct (resolve_channel_id_net platform api_key value st) as (F1 & _).
  rewrite H1 in Hc, F1. cbn [snd] in F1.
  destruct (Py.truthy channel_id); [|discriminate]. cbn [negb] in H.
  apply bind_ok in H as (channel' & st2 & H2 & H).
  destruct (get_channel_details_net platform repr api_key channel_id st1)
    as (F2 & _).
  rewrite H2 in Hc, F2. cbn [snd] in F2. injection Hc as ->.
  apply bind_ok in H as (row & st3 & H3 & H).
  unfold lift in H3. injection H3 as _ <-.
  apply bind_ok in H as ([] & st3 & H3 & H).
  unfold append_row in H3. injection H3 as <-.
  unfold export_videos in H.
  apply bind_ok in H as (uploads & st4 & H4 & H).
  unfold lift in H4. injection H4 as _ <-.
  apply bind_ok in H as (filename & st4 & H4 & H).
  unfold lift in H4. injection H4 as Hname <-.
  apply bind_ok in H as (videos & st5 & H5 & H).
  match type of H5 with
  | ?m ?s = _ =>
      destruct (gather_videos_net fuel api_key uploads s) as (F5 & _)
  end.
  rewrite H5 in F5. cbn [snd st_files] in F5.
  apply bind_ok in H as ([] & st6 & H6 & H).
  apply write_videos_info_ok in H6 as (rows & Hsrc & _ & F6).
  unfold emit in H. injection H as <-. cbn [st_files].
  exists filename, rows. repeat split; try assumption. congruence.
Qed.


(** C10. The path of the video table is [videos_info_path] of the output
    directory and the sanitized title of the channel, and nothing else:
    two lines, processed to their end from any two states, whose channels
    have titles that sanitize to the same name write the same path; each
    leaves there the header and its own rows, and as the file is opened
    for writing, what the later line finds at that path is replaced. *)
Theorem videos_info_path_shared fuel api_key outdir a b
    (st_a st_a' st_b st_b' : state net) channel_a channel_b title_a title_b :
  line_channel platform repr api_key a st_a = Some channel_a ->
  line_channel platform repr api_key b st_b = Some channel_b ->
  filing_title channel_a = JStr title_a ->
  filing_title channel_b = JStr title_b ->
  sanitize_filename title_a = sanitize_filename title_b ->
  process_channel platform repr fuel api_key outdir a st_a = (Ok tt, st_a') ->
  process_channel platform repr fuel api_key outdir b st_b = (Ok tt, st_b') ->
  let path := videos_info_path outdir (sanitize_filename title_a) in
  (exists rows,
      Forall (fun row => head row = Some (JStr a)) rows
      /\ st_files st_a' = <[path := videos_header :: rows]> (st_files st_a))
  /\ (exists rows,
         Forall (fun row => head row = Some (JStr b)) rows
         /\ st_files st_b' = <[path := videos_header :: rows]> (st_files st_b)
         /\ st_files st_b' !! path = Some (videos_header :: rows)).
Proof.
  intros Ca Cb Ta Tb Hsame Ha Hb path.
  destruct (process_channel_ok _ _ _ _ _ _ _ Ca Ha)
    as (fa & rows_a & Na & Sa & Fa).
  destruct (process_channel_ok _ _ _ _ _ _ _ Cb Hb)
    as (fb & rows_b & Nb & Sb & Fb).
  rewrite (channel_filename_title _ _ _ Na Ta) in Fa.
  rewrite (channel_filename_title _ _ _ Nb Tb), <- Hsame in Fb.
  split.
  - exists rows_a. auto.
  - exists rows_b. repeat split; auto.
    unfold path. rewrite Fb. apply lookup_insert_eq.
Qed.

End Driver.

Lemma pair_eta {A B} (p : A * B) a : fst p = a -> p = (a, snd p).
Proof. destruct p. cbn. intros ->. reflexivity. Qed.


Lemma videos_info_path_shared_witness :
  exists rows,
    Forall (fun row => head row = Some (JStr Mock.channel_id)) rows
    /\ st_files
         (snd (process_channel Mock.platform Mock.repr 5 "KEY" "out"
                 Mock.channel_id
                 (snd (process_channel Mock.platform Mock.repr 5 "KEY" "out"
                         "@someHandle" Mock.start))))
         !! videos_info_path "out" (sanitize_filename "My: Channel")
       = Some (videos_header :: rows).
Proof.
  assert (Ca : line_channel Mock.platform Mock.repr "KEY" "@someHandle"
                 Mock.start = Some Mock.channel)
    by (vm_compute; reflexivity).
  assert (Cb : line_channel Mock.platform Mock.repr "KEY" Mock.channel_id
                 (snd (process_channel Mock.platform Mock.repr 5 "KEY" "out"
                         "@someHandle" Mock.start))
               = Some Mock.channel)
    by (vm_compute; reflexivity).
  destruct (videos_info_path_shared Mock.platform Mock.repr 5 "KEY" "out"
              "@someHandle" Mock.channel_id _ _ _ _ _ _
              "My: Channel" "My: Channel" Ca Cb eq_refl eq_refl eq_refl
              (pair_eta _ _ ltac:(vm_compute; reflexivity))
              (pair_eta _ _ ltac:(vm_compute; reflexivity)))
    as (_ & rows & Hsrc & _ & Hfile).
  exists rows. split; [exact Hsrc|exact Hfile].
Defined.

(** ** Further properties: the input file and the classifier *)

Lemma read_channels_in lines value :
  In value (read_channels lines) -> channel_line value.
Proof.
  unfold read_channels, channel_line. intros H.
  apply List.filter_In in H as [Hin Hkeep].
  apply List.in_map_iff in Hin as (line & <- & _).
  apply negb_true_iff, orb_false_iff in Hkeep as [Hne Hc].
  split; [apply StrFacts.strip_idem|]. split; [|exact Hc].
  intros E. rewrite E in Hne. discriminate Hne.
Qed.

Lemma read_channels_fixed lines :
  Forall channel_line lines -> read_channels lines = lines.
Proof.
  unfold read_channels. induction 1 as [|v rest (Hs & Hne & Hc) _ IH];
    [reflexivity|].
  cbn [List.map List.filter]. rewrite Hs, Hc, IH.
  destruct v; [congruence|reflexivity].
Qed.

(** X1. Every line that [read_channels] returns is trimmed, not empty and not a
    comment; lines of that kind are all kept, in their order, so reading the
    result again changes nothing. *)
Theorem read_channels_clean lines :
  Forall channel_line (read_channels lines)
  /\ read_channels (read_channels lines) = read_channels lines
  /\ (forall kept, Forall channel_line kept ->
        read_channels (lines ++ kept) = read_channels lines ++ kept).
Proof.
  assert (H : Forall channel_line (read_channels lines)).
  { apply Forall_forall. intros v Hv.
    apply (read_channels_in lines), list_elem_of_In, Hv. }
  split; [exact H|]. split; [apply read_channels_fixed, H|].
  intros kept Hk. rewrite <- (read_channels_fixed kept Hk) at 2.
  unfold read_channels. rewrite List.map_app, List.filter_app. reflexivity.
Qed.

Lemma read_channels_clean_witness :
  read_channels (["# channels"; "  @someHandle  "; ""] ++ ["UCabc"])
  = ["@someHandle"; "UCabc"].
Proof.
  rewrite (proj2 (proj2 (read_channels_clean
                           ["# channels"; "  @someHandle  "; ""]))
             ["UCabc"]).
  - reflexivity.
  - repeat constructor; discriminate.
Defined.

Lemma search_group lit cls s g :
  Re.search lit cls s = Some g -> g <> "" /\ Str.forallb cls g = true.
Proof.
  assert (Hw : forall x, Str.forallb cls (Str.take_while cls x) = true).
  { induction x as [|c r IH]; [reflexivity|]. cbn [Str.take_while].
    destruct (cls c) eqn:E; [|reflexivity]. cbn [Str.forallb].
    rewrite E, IH. reflexivity. }
  induction s as [|c r IH]; cbn [Re.search]; unfold Re.match_at.
  - destruct (Str.startswith "" lit); [|discriminate]. cbn.
    destruct (Str.take_while cls (Str.drop (String.length lit) ""))
      eqn:E; [discriminate|].
    intros [= <-]. split; [discriminate|]. rewrite <- E. apply Hw.
  - destruct (Str.startswith (String c r) lit); [|exact IH].
    destruct (Str.take_while cls (Str.drop (String.length lit) (String c r)))
      as [|a g'] eqn:E; cbn [Str.is_empty]; [exact IH|].
    intros [= <-]. split; [discriminate|]. rewrite <- E. apply Hw.
Qed.

(** X2. The identifier that the classifier takes out of a URL is never empty
    and holds only the characters of its class: for kind username, and for
    kind id unless the whole trimmed input is returned by the first rule,
    letters, digits, underscore and hyphen. *)
Theorem extract_channel_identifier_tokens value :
  let kind := fst (extract_channel_identifier value) in
  let ident := snd (extract_channel_identifier value) in
  (kind = "username" ->
   ident <> "" /\ Str.forallb Re.token_char ident = true)
  /\ (kind = "id" ->
      (ident = Str.strip value /\ Str.startswith ident "UC" = true
       /\ 20 <= String.length ident)
      \/ (ident <> "" /\ Str.forallb Re.token_char ident = true)).
Proof.
  cbv zeta. unfold extract_channel_identifier.
  destruct (Str.startswith (Str.strip value) "UC") eqn:E1;
    destruct (20 <=? String.length (Str.strip value))%nat eqn:E2;
    cbn [andb fst snd];
    try (split; [discriminate|]; intros _; left;
         repeat split; auto; apply Nat.leb_le, E2);
    (destruct (Re.search "youtube.com/channel/" Re.token_char
                 (Str.strip value)) as [g|] eqn:S1;
     [cbn [fst snd]; split; [discriminate|]; intros _; right;
      apply (search_group _ _ _ _ S1)|]);
    (destruct (Re.search "youtube.com/user/" Re.token_char
                 (Str.strip value)) as [g|] eqn:S2;
     [cbn [fst snd]; split; [|discriminate]; intros _;
      apply (search_group _ _ _ _ S2)|]);
    repeat match goal with
           | |- context [if ?b then _ else _] => destruct b
           | |- context [Re.search ?l ?c ?v] => destruct (Re.search l c v)
           end; cbn [fst snd]; split; discriminate.
Qed.

Lemma extract_channel_identifier_tokens_witness :
  snd (extract_channel_identifier "https://youtube.com/user/some_one?x") <> ""
  /\ Str.forallb Re.token_char
       (snd (extract_channel_identifier "https://youtube.com/user/some_one?x"))
     = true.
Proof.
  apply (proj1 (extract_channel_identifier_tokens
                  "https://youtube.com/user/some_one?x")).
  reflexivity.
Defined.

Lemma handle_not_space c : Re.handle_char c = true -> Str.is_space c = false.
Proof.
  destruct c as [[] [] [] [] [] [] [] []]; try reflexivity;
    intros H; vm_compute in H; discriminate H.
Qed.

Lemma handle_not_slash c : Re.handle_char c = true -> not_slash c = true.
Proof.
  destruct c as [[] [] [] [] [] [] [] []]; try reflexivity;
    intros H; vm_compute in H; discriminate H.
Qed.

Lemma forallb_impl (p q : ascii -> bool) s :
  (forall c, p c = true -> q c = true) ->
  Str.forallb p s = true -> Str.forallb q s = true.
Proof.
  intros Hpq. induction s as [|c r IH]; [reflexivity|]. cbn [Str.forallb].
  intros H. apply andb_prop in H as [Hc Hr].
  rewrite (Hpq _ Hc), (IH Hr). reflexivity.
Qed.

Lemma rstrip_solid_all s :
  Str.forallb (fun c => negb (Str.is_space c)) s = true -> Str.rstrip s = s.
Proof.
  induction s as [|c r IH]; [reflexivity|]. cbn [Str.forallb Str.rstrip].
  intros H. apply andb_prop in H as [Hc Hr].
  apply negb_true_iff in Hc. rewrite Hc, (IH Hr). reflexivity.
Qed.

Lemma prefix_forallb p lit s :
  String.prefix lit s = true -> Str.forallb p s = true ->
  Str.forallb p lit = true.
Proof.
  revert s; induction lit as [|a lit IH]; intros s; [reflexivity|].
  destruct s as [|c r]; cbn [String.prefix Str.forallb]; [discriminate|].
  destruct (Ascii.ascii_dec a c) as [->|]; [|discriminate].
  intros Hp H. apply andb_prop in H as [Hc Hr].
  rewrite Hc, (IH _ Hp Hr). reflexivity.
Qed.

(** A pattern whose literal part has a character that the text lacks finds
    nothing in the text. *)
Lemma search_without p lit cls s :
  Str.forallb p lit = false -> Str.forallb p s = true ->
  Re.search lit cls s = None.
Proof.
  intros Hlit. induction s as [|c r IH]; intros Hs;
    cbn [Re.search]; unfold Re.match_at, Str.startswith.
  - destruct (String.prefix lit "") eqn:E; [|reflexivity].
    rewrite (prefix_forallb p _ _ E Hs) in Hlit. discriminate.
  - destruct (String.prefix lit (String c r)) eqn:E.
    + rewrite (prefix_forallb p _ _ E Hs) in Hlit. discriminate.
    + apply IH. cbn [Str.forallb] in Hs. apply andb_prop in Hs as [_ Hr].
      exact Hr.
Qed.

(** X3. Every handle made of letters, digits, underscores, dots and hyphens,
    written with its at sign, is classified as a query for the handle
    without the sign. *)
Theorem extract_channel_identifier_handle handle :
  Str.forallb Re.handle_char handle = true ->
  extract_channel_identifier ("@" +:+ handle) = ("query", handle).
Proof.
  intros H.
  assert (Hs : Str.strip ("@" +:+ handle) = "@" +:+ handle).
  { unfold Str.strip. change (Str.lstrip ("@" +:+ handle)) with ("@" +:+ handle).
    apply rstrip_solid_all.
    change ("@" +:+ handle) with (String "@" handle). cbn [Str.forallb].
    rewrite (forallb_impl _ (fun c => negb (Str.is_space c)) _
               (fun c Hc => proj2 (negb_true_iff _) (handle_not_space c Hc)) H).
    reflexivity. }
  assert (Hslash : Str.forallb not_slash ("@" +:+ handle) = true).
  { change ("@" +:+ handle) with (String "@" handle). cbn [Str.forallb].
    rewrite (forallb_impl _ _ _ handle_not_slash H). reflexivity. }
  unfold extract_channel_identifier. rewrite Hs.
  change (Str.startswith ("@" +:+ handle) "UC") with false. cbn [andb].
  rewrite (search_without not_slash "youtube.com/channel/" _ _ eq_refl Hslash),
    (search_without not_slash "youtube.com/user/" _ _ eq_refl Hslash),
    (search_without not_slash "youtube.com/@" _ _ eq_refl Hslash).
  change (Str.startswith ("@" +:+ handle) "@") with (String.prefix "" handle).
  destruct handle; reflexivity.
Qed.

Lemma extract_channel_identifier_handle_witness :
  extract_channel_identifier "@some.Handle-01" = ("query", "some.Handle-01").
Proof.
  apply (extract_channel_identifier_handle "some.Handle-01"). reflexivity.
Defined.

Section ChannelIdLine.

Context {net : Type}.
Variable platform : request -> net -> response * net.

(** X4. A line of the input file that starts with UC and has at least 20
    characters once trimmed is taken as the channel ID itself: the resolver
    returns it unchanged and asks the platform nothing. *)
Theorem channel_id_line_resolves lines value api_key (st : state net) :
  In value (read_channels lines) ->
  Str.startswith value "UC" = true -> 20 <= String.length value ->
  extract_channel_identifier value = ("id", value)
  /\ resolve_channel_id platform api_key value st = (Ok (JStr value), st).
Proof.
  intros Hin Huc Hlen. destruct (read_channels_in _ _ Hin) as (Hs & _ & _).
  assert (E : extract_channel_identifier value = ("id", value)).
  { unfold extract_channel_identifier. rewrite Hs, Huc.
    apply Nat.leb_le in Hlen. rewrite Hlen. reflexivity. }
  split; [exact E|]. unfold resolve_channel_id. rewrite E. reflexivity.
Qed.

End ChannelIdLine.

Lemma channel_id_line_resolves_witness :
  resolve_channel_id Mock.platform "KEY" Mock.channel_id Mock.start
  = (Ok (JStr Mock.channel_id), Mock.start).
Proof.
  apply (channel_id_line_resolves Mock.platform
           ["# list"; "  UCmockmockmockmockmock01  "] Mock.channel_id "KEY"
           Mock.start).
  - vm_compute. left. reflexivity.
  - reflexivity.
  - vm_compute. lia.
Defined.

(** ** Further properties: file names and paths *)

Lemma rstrip_last_solid s :
  Str.rstrip s <> "" ->
  exists c, Str.last_char (Str.rstrip s) = Some c /\ Str.is_space c = false.
Proof.
  induction s as [|a r IH]; cbn [Str.rstrip]; [congruence|].
  destruct (Str.rstrip r) as [|b r'] eqn:E.
  - cbn [Str.is_empty]. rewrite andb_true_r.
    destruct (Str.is_space a) eqn:Ea; [congruence|].
    intros _. exists a. split; [reflexivity|exact Ea].
  - cbn [Str.is_empty]. rewrite andb_false_r. intros _.
    destruct (IH ltac:(discriminate)) as (c & Hc & Hs).
    exists c. split; [exact Hc|exact Hs].
Qed.

Lemma last_char_map f s :
  Str.last_char (Str.map f s) = option_map f (Str.last_char s).
Proof.
  induction s as [|a r IH]; [reflexivity|].
  destruct r as [|b r']; [reflexivity|]. exact IH.
Qed.

Lemma last_char_sub_spaces b s c :
  Str.last_char s = Some c -> Str.is_space c = false ->
  Str.last_char (Re.sub_spaces_from b s) = Some c.
Proof.
  revert b; induction s as [|a r IH]; intros b Hl Hc; [discriminate|].
  destruct r as [|x r'].
  - injection Hl as ->. cbn [Re.sub_spaces_from]. rewrite Hc. reflexivity.
  - change (Str.last_char (String x r') = Some c) in Hl.
    remember (String x r') as t eqn:Et. clear Et.
    cbn [Re.sub_spaces_from].
    destruct (Str.is_space a); [destruct b|].
    + apply IH; assumption.
    + pose proof (IH true Hl Hc) as H.
      destruct (Re.sub_spaces_from true t); [discriminate|exact H].
    + pose proof (IH false Hl Hc) as H.
      destruct (Re.sub_spaces_from false t); [discriminate|exact H].
Qed.

Lemma length_sub_spaces b s :
  String.length (Re.sub_spaces_from b s) <= String.length s.
Proof.
  revert b; induction s as [|a r IH]; intros b; [reflexivity|].
  cbn [Re.sub_spaces_from String.length].
  destruct (Str.is_space a); [destruct b|]; cbn [String.length];
    specialize (IH true) as H1; specialize (IH false) as H2; lia.
Qed.

Lemma clean_sub_unsafe s :
  Str.forallb (fun c => negb (Re.unsafe_char c)) s = true ->
  Re.sub_unsafe s = s.
Proof.
  unfold Re.sub_unsafe.
  induction s as [|c r IH]; cbn [Str.map Str.forallb]; [reflexivity|].
  intros H. apply andb_prop in H as [Hc Hr]. apply negb_true_iff in Hc.
  rewrite Hc, (IH Hr). reflexivity.
Qed.

Lemma collapsed_sub_spaces b s :
  Str.collapsed_from b s = true -> Re.sub_spaces_from b s = s.
Proof.
  revert b; induction s as [|c r IH]; intros b; [reflexivity|].
  cbn [Str.collapsed_from Re.sub_spaces_from].
  destruct (Str.is_space c).
  - intros H. apply andb_prop in H as [H Hr]. apply andb_prop in H as [Hc Hb].
    apply negb_true_iff in Hb. subst b.
    apply Ascii.eqb_eq in Hc. subst c. rewrite (IH true Hr). reflexivity.
  - intros H. rewrite (IH false H). reflexivity.
Qed.

(** The name before the cut to 120 characters *)
Lemma sanitize_filename_uncut name :
  exists base,
    Str.starts_solid base
    /\ (exists c, Str.last_char base = Some c /\ Str.is_space c = false)
    /\ String.length base <= Nat.max 7 (String.length (Str.strip name))
    /\ sanitize_filename name
       = Str.take 120 (Re.sub_spaces (Re.sub_unsafe base)).
Proof.
  unfold sanitize_filename.
  destruct (StrFacts.strip_cases name) as [E|H].
  - rewrite E. exists "channel". repeat split; cbn; try lia.
    exists "l"%char. split; reflexivity.
  - exists (Str.strip name).
    destruct (Str.strip name) as [|c r] eqn:E; [destruct H|].
    cbn [Str.is_empty]. rewrite <- E. repeat split; try lia.
    + rewrite E. exact H.
    + unfold Str.strip in *. apply rstrip_last_solid. rewrite E. discriminate.
Qed.

(** X5. Sanitizing a name that came out of [sanitize_filename] uncut gives the
    same name: a title of at most 120 characters once trimmed is brought
    to a fixed point in one step. *)
Theorem sanitize_filename_idempotent name :
  String.length (Str.strip name) <= 120 ->
  sanitize_filename (sanitize_filename name) = sanitize_filename name.
Proof.
  intros Hlen.
  destruct (sanitize_filename_uncut name) as (base & Hsolid & (c & Hl & Hc)
                                              & Hb & ->).
  set (r := Re.sub_spaces (Re.sub_unsafe base)).
  assert (Hr : String.length r <= 120).
  { unfold r, Re.sub_spaces.
    pose proof (length_sub_spaces false (Re.sub_unsafe base)) as H.
    unfold Re.sub_unsafe in *. rewrite StrFacts.length_map in H. lia. }
  rewrite (StrFacts.take_all _ _ Hr).
  assert (Hrs : Str.starts_solid r).
  { apply StrFacts.sub_spaces_solid, StrFacts.sub_unsafe_solid, Hsolid. }
  assert (Hrl : exists c', Str.last_char r = Some c' /\ Str.is_space c' = false).
  { unfold r, Re.sub_spaces, Re.sub_unsafe.
    exists (if Re.unsafe_char c then "_"%char else c).
    assert (Hc' : Str.is_space (if Re.unsafe_char c then "_"%char else c)
                  = false) by (destruct (Re.unsafe_char c); auto).
    split; [|exact Hc'].
    apply last_char_sub_spaces; [|exact Hc'].
    rewrite last_char_map, Hl. reflexivity. }
  destruct Hrl as (c' & Hl' & Hc').
  assert (Hstrip : Str.strip r = r).
  { unfold Str.strip. rewrite (StrFacts.lstrip_solid _ Hrs).
    apply (StrFacts.rstrip_last _ _ Hl' Hc'). }
  unfold sanitize_filename. rewrite Hstrip.
  destruct r as [|a r'] eqn:Er; [destruct Hrs|]. cbn [Str.is_empty].
  rewrite <- Er in *.
  assert (Hclean : Str.forallb (fun c => negb (Re.unsafe_char c)) r = true).
  { rewrite Er. unfold r in Er. rewrite <- Er.
    apply StrFacts.sub_spaces_clean, StrFacts.sub_unsafe_clean. }
  rewrite (clean_sub_unsafe _ Hclean).
  assert (Hcol : Str.collapsed_from false r = true).
  { rewrite Er. unfold r in Er. rewrite <- Er.
    apply StrFacts.sub_spaces_collapsed. }
  unfold Re.sub_spaces. rewrite (collapsed_sub_spaces _ _ Hcol).
  apply StrFacts.take_all, Hr.
Qed.

Lemma sanitize_filename_idempotent_witness :
  sanitize_filename (sanitize_filename "  a/b :  c  ")
  = sanitize_filename "  a/b :  c  ".
Proof.
  apply sanitize_filename_idempotent. vm_compute. lia.
Defined.

Lemma safe_not_slash c :
  negb (Re.unsafe_char c) = true -> not_slash c = true.
Proof.
  destruct c as [[] [] [] [] [] [] [] []]; try reflexivity;
    intros H; vm_compute in H; discriminate H.
Qed.

Lemma path_join_relative a b :
  Str.startswith b "/" = false -> path_join a b = dir_prefix a +:+ b.
Proof.
  unfold path_join, dir_prefix. intros ->.
  destruct (Str.is_empty a); [reflexivity|].
  destruct (Str.last_char a) as [c|].
  - destruct (Ascii.eqb_spec c "/") as [->|Hne]; [reflexivity|].
    destruct c as [[] [] [] [] [] [] [] []];
      try (symmetry; apply StrFacts.append_assoc).
    contradiction Hne. reflexivity.
  - symmetry. apply StrFacts.append_assoc.
Qed.

(** X6. Whatever the title of the channel, the sanitized name holds no slash
    and the video table is a file of the output directory itself: the path
    is the directory, one slash, the name and the suffix. *)
Theorem videos_info_path_in_outdir outdir title :
  let name := sanitize_filename title in
  Str.forallb not_slash name = true
  /\ videos_info_path outdir name
     = dir_prefix outdir +:+ name +:+ "_videosinfo.csv".
Proof.
  cbv zeta.
  destruct (sanitize_filename_uncut title) as (base & Hsolid & _ & _ & E).
  assert (Hclean : Str.forallb (fun c => negb (Re.unsafe_char c))
                     (sanitize_filename title) = true).
  { rewrite E. apply StrFacts.take_forallb, StrFacts.sub_spaces_clean,
      StrFacts.sub_unsafe_clean. }
  assert (Hstart : Str.starts_solid (sanitize_filename title)).
  { rewrite E. apply StrFacts.take_solid, StrFacts.sub_spaces_solid,
      StrFacts.sub_unsafe_solid, Hsolid. }
  pose proof (forallb_impl _ _ _ safe_not_slash Hclean) as Hslash.
  split; [exact Hslash|].
  unfold videos_info_path. apply path_join_relative.
  destruct (sanitize_filename title) as [|a rest]; [destruct Hstart|].
  cbn [Str.forallb] in Hslash. apply andb_prop in Hslash as [Ha _].
  unfold not_slash in Ha. apply negb_true_iff, Ascii.eqb_neq in Ha.
  unfold Str.startswith.
  change (String.prefix "/" (String a (rest +:+ "_videosinfo.csv")) = false).
  cbn [String.prefix]. destruct (Ascii.ascii_dec "/" a); [congruence|].
  reflexivity.
Qed.

(** X7. No video table is ever written over the channel table: whatever the
    output directory and the file name, the two paths differ. *)
Theorem video_table_is_not_channel_table outdir filename :
  videos_info_path outdir filename <> channels_csv_path outdir.
Proof.
  unfold videos_info_path, channels_csv_path.
  destruct (path_join_suffix outdir (filename +:+ "_videosinfo.csv"))
    as [p1 ->].
  destruct (path_join_suffix outdir "channels_metadata.csv") as [p2 ->].
  change "channels_metadata.csv" with ("channels_metadat" +:+ "a.csv").
  change "_videosinfo.csv" with ("_videosinf" +:+ "o.csv").
  rewrite <- (StrFacts.append_assoc filename), <- !StrFacts.append_assoc.
  intros H. apply StrFacts.append_tail_eq in H; [discriminate H|reflexivity].
Qed.

(** ** Further properties: batches and tags *)

Lemma range_from_length fuel start stop step :
  0 < step -> stop - start <= fuel ->
  length (range_from fuel start stop step) = (stop - start + step - 1) / step.
Proof.
  intros Hstep. revert start; induction fuel as [|fuel IH]; intros start Hfuel.
  - cbn. replace (stop - start + step - 1) with (step - 1) by lia.
    symmetry. apply Nat.div_small. lia.
  - cbn [range_from]. destruct (Nat.ltb_spec start stop) as [Hlt|Hge].
    + cbn [length]. rewrite IH by lia.
      replace (stop - start + step - 1) with (stop - start - 1 + 1 * step)
        by lia.
      rewrite Nat.div_add by lia.
      destruct (Nat.le_gt_cases step (stop - start)) as [Hbig|Hsmall].
      * replace (stop - (start + step) + step - 1) with (stop - start - 1)
          by lia.
        lia.
      * replace (stop - (start + step) + step - 1) with (step - 1) by lia.
        rewrite !Nat.div_small by lia. reflexivity.
    + cbn. replace (stop - start + step - 1) with (step - 1) by lia.
      symmetry. apply Nat.div_small. lia.
Qed.

(** X8. [chunks] cuts a list of n items into the least number of batches that
    the size allows, n divided by the size and rounded up; an empty list
    gives no batch at all. *)
Theorem chunks_count {A} (items : list A) size batches :
  chunks items size = Ok batches ->
  length batches = (length items + size - 1) / size
  /\ (items = [] -> batches = []).
Proof.
  destruct size as [|k]; [discriminate|]. intros [= <-]. split.
  - rewrite length_map, range_from_length by lia. f_equal. lia.
  - intros ->. reflexivity.
Qed.

Lemma chunks_count_witness :
  exists batches,
    chunks (List.repeat "id" 101) 50 = Ok batches /\ length batches = 3.
Proof.
  eexists. split; [reflexivity|].
  rewrite (proj1 (chunks_count (List.repeat "id" 101) 50 _ eq_refl)).
  reflexivity.
Defined.

Lemma strings_chars s : Py.strings (Py.chars s) = Some (single_chars s).
Proof.
  unfold single_chars. induction s as [|c r IH]; [reflexivity|].
  cbn [Py.chars Py.strings list_ascii_of_string List.map]. rewrite IH.
  reflexivity.
Qed.

(** X9. [format_tags] gives the empty cell for no tags at all ([None], an empty
    list, any false value); joins a list of strings with bars; raises
    [TypeError] for a list that is not empty and holds something else than
    strings, and for a number or [True]; and takes a string that is not in
    a list for the list of its characters. *)
Theorem format_tags_cases :
  (forall tags, Py.truthy tags = false -> format_tags tags = Ok "")
  /\ (forall tags ss,
         Py.strings tags = Some ss ->
         format_tags (JArr tags) = Ok (Str.join "|" ss))
  /\ (forall tags,
         tags <> [] -> Py.strings tags = None ->
         format_tags (JArr tags) = Raise TypeError)
  /\ (forall s,
         s <> "" -> format_tags (JStr s) = Ok (Str.join "|" (single_chars s)))
  /\ (forall n, n <> 0%Z -> format_tags (JNum n) = Raise TypeError)
  /\ format_tags (JBool true) = Raise TypeError.
Proof.
  split; [|split; [|split; [|split; [|split]]]].
  - intros tags H. unfold format_tags. rewrite H. reflexivity.
  - apply format_tags_strings.
  - intros [|t r] Hne H; [congruence|]. unfold format_tags.
    cbn [Py.truthy negb Py.iter rbind]. unfold Py.join. rewrite H.
    reflexivity.
  - intros [|c r] Hne; [congruence|]. unfold format_tags.
    cbn [Py.truthy Str.is_empty negb Py.iter rbind]. unfold Py.join.
    rewrite strings_chars. reflexivity.
  - intros n Hn. unfold format_tags. cbn [Py.truthy].
    apply Z.eqb_neq in Hn. rewrite Hn. reflexivity.
  - reflexivity.
Qed.

Lemma format_tags_cases_witness :
  format_tags (JArr [JStr "a"; JNum 1]) = Raise TypeError
  /\ format_tags (JStr "abc") = Ok "a|b|c"
  /\ format_tags (JArr []) = Ok "".
Proof.
  destruct format_tags_cases as (Hfalse & _ & Hbad & Hstr & _).
  split; [|split].
  - apply Hbad; [discriminate|reflexivity].
  - apply (Hstr "abc"). discriminate.
  - apply Hfalse. reflexivity.
Defined.

(** ** Further properties: the network functions *)

Section NetworkOnly.

Context {net : Type}.
Variable platform : request -> net -> response * net.
Variable repr : json -> string.

(** X10. The client, the resolver, the detail fetcher, the enumerator and the
    batch fetcher touch the network only: whatever their outcome, they
    leave the files and the rows of the channel table as they were and add
    nothing to the trace but requests and pauses. *)
Theorem network_functions_touch_network_only (st : state net) :
  (forall path params,
      net_step st (snd (http_get platform path params st)))
  /\ (forall api_key value,
         net_step st (snd (resolve_channel_id platform api_key value st)))
  /\ (forall api_key channel_id,
         net_step st (snd (get_channel_details platform repr api_key
                             channel_id st)))
  /\ (forall fuel api_key pid,
         net_step st (snd (iter_uploads_playlist_video_ids platform fuel
                             api_key pid st)))
  /\ (forall api_key video_ids,
         net_step st (snd (fetch_videos_details platform api_key video_ids
                             st))).
Proof.
  split; [|split; [|split; [|split]]]; intros.
  - apply http_get_net.
  - apply resolve_channel_id_net.
  - apply get_channel_details_net.
  - apply uploads_loop_net.
  - apply fetch_videos_details_net.
Qed.

(** X11. A failure of the client goes through the resolver and the detail
    fetcher unchanged, with the state the failed request left; and the
    detail fetcher returns the first record of a result list, whatever
    follows it. *)
Theorem client_failures_propagate api_key (st st' : state net) e :
  (forall value,
      fst (extract_channel_identifier value) = "username" ->
      http_get platform "channels"
        [("part", JStr "id");
         ("forUsername", JStr (snd (extract_channel_identifier value)));
         ("key", JStr api_key)] st = (Raise e, st') ->
      resolve_channel_id platform api_key value st = (Raise e, st'))
  /\ (forall value,
      fst (extract_channel_identifier value) = "query" ->
      http_get platform "search"
        [("part", JStr "snippet");
         ("q", JStr (snd (extract_channel_identifier value)));
         ("type", JStr "channel"); ("maxResults", JStr "1");
         ("key", JStr api_key)] st = (Raise e, st') ->
      resolve_channel_id platform api_key value st = (Raise e, st'))
  /\ (forall channel_id,
      http_get platform "channels"
        (req_params (details_request api_key channel_id)) st = (Raise e, st') ->
      get_channel_details platform repr api_key channel_id st = (Raise e, st'))
  /\ (forall channel_id payload n' channel others,
      platform (details_request api_key channel_id) (st_net st)
      = (Decoded payload, n') ->
      clean payload -> items_of payload = Some (channel :: others) ->
      get_channel_details platform repr api_key channel_id st
      = (Ok channel, sent st (details_request api_key channel_id) n')).
Proof.
  split; [|split; [|split]].
  - intros value Hk H. unfold resolve_channel_id.
    destruct (extract_channel_identifier value) as [kind ident].
    cbn [fst snd] in *. subst kind. cbn [String.eqb Ascii.eqb Bool.eqb].
    unfold bind. rewrite H. reflexivity.
  - intros value Hk H. unfold resolve_channel_id.
    destruct (extract_channel_identifier value) as [kind ident].
    cbn [fst snd] in *. subst kind. cbn [String.eqb Ascii.eqb Bool.eqb].
    unfold bind. rewrite H. reflexivity.
  - intros channel_id H. unfold get_channel_details, bind.
    cbn [details_request req_params] in H. rewrite H. reflexivity.
  - intros channel_id payload n' channel others H Hc Hi.
    apply (get_channel_details_eq _ _ _ _ _ _ _ _ H Hc Hi).
Qed.

End NetworkOnly.

Lemma client_failures_propagate_witness :
  resolve_channel_id Mock.platform "KEY" "youtube.com/user/broken" Mock.start
  = (Raise (YouTubeApiError (JStr "quota exceeded")),
     snd (http_get Mock.platform "channels"
            [("part", JStr "id"); ("forUsername", JStr "broken");
             ("key", JStr "KEY")] Mock.start)).
Proof.
  apply (proj1 (client_failures_propagate Mock.platform Mock.repr "KEY"
                  Mock.start _ _) "youtube.com/user/broken");
    reflexivity.
Defined.

Section Endless.

Context {net : Type}.
Variable platform : request -> net -> response * net.

Lemma uploads_loop_endless api_key pid :
  (forall tok n,
      exists payload n' items,
        platform (playlist_request api_key pid tok) n = (Decoded payload, n')
        /\ clean payload /\ items_of payload = Some items
        /\ forallb is_item items = true
        /\ Py.truthy (cursor_of payload) = true) ->
  forall fuel tok (st : state net),
    exists st',
      uploads_loop platform fuel api_key pid tok st = (Diverge, st')
      /\ length (st_trace st') = length (st_trace st) + fuel.
Proof.
  intros Hp fuel. induction fuel as [|fuel IH]; intros tok st.
  - exists st. split; [reflexivity|lia].
  - destruct (Hp tok (st_net st)) as (payload & n' & items & H & Hc & Hi
                                       & Hitems & Hcur).
    destruct (IH (cursor_of payload)
                 (sent st (playlist_request api_key pid tok) n'))
      as (st' & E & L).
    exists st'. split.
    + cbn [uploads_loop]. unfold bind at 1.
      rewrite (http_get_clean platform "playlistItems" _ st payload n' H Hc).
      unfold bind, lift. rewrite (get_items _ _ Hi). cbn [Py.iter].
      rewrite (page_video_ids_items _ Hitems), (get_cursor _ Hc), Hcur.
      cbn [negb]. fold (playlist_request api_key pid tok). rewrite E.
      reflexivity.
    + rewrite L. unfold sent. cbn [st_trace]. rewrite length_app.
      cbn [length]. lia.
Qed.

(** X12. The enumerator stops on nothing but a page without a cursor: against a
    platform that puts a cursor on every page of the playlist, no number of
    iterations is enough, and every iteration has sent a request. *)
Theorem uploads_enumeration_has_no_cap api_key pid :
  (forall tok n,
      exists payload n' items,
        platform (playlist_request api_key pid tok) n = (Decoded payload, n')
        /\ clean payload /\ items_of payload = Some items
        /\ forallb is_item items = true
        /\ Py.truthy (cursor_of payload) = true) ->
  forall fuel (st : state net),
    fst (iter_uploads_playlist_video_ids platform fuel api_key pid st)
    = Diverge
    /\ length (st_trace (snd (iter_uploads_playlist_video_ids
                                platform fuel api_key pid st)))
       = length (st_trace st) + fuel.
Proof.
  intros Hp fuel st. unfold iter_uploads_playlist_video_ids.
  destruct (uploads_loop_endless api_key pid Hp fuel (JStr "") st)
    as (st' & -> & L).
  split; [reflexivity|exact L].
Qed.

End Endless.

Lemma uploads_enumeration_has_no_cap_witness :
  fst (iter_uploads_playlist_video_ids Faulty.endless 1000 "KEY" (JStr "UU1")
         Mock.start) = Diverge.
Proof.
  apply (uploads_enumeration_has_no_cap Faulty.endless "KEY" (JStr "UU1")).
  intros tok n.
  exists (JObj [("items", JArr [Mock.item "v"]);
                ("nextPageToken", JStr "again")]), n, [Mock.item "v"].
  split; [reflexivity|].
  split; [eexists; split; reflexivity|]. repeat split.
Defined.

(** ** Further properties: the writers *)

Lemma video_row_width repr source_input channel_id channel_title video row :
  video_row repr source_input channel_id channel_title video = Ok row ->
  length row = length videos_header.
Proof.
  unfold video_row. intros H.
  repeat (apply rbind_ok in H as (? & _ & H)).
  injection H as <-. reflexivity.
Qed.

Lemma channel_cells channel :
  is_channel channel = true ->
  Py.get channel "id" (JStr "") = Ok (cell (top channel "id"))
  /\ exists snippet,
      Py.get channel "snippet" (JObj []) = Ok snippet
      /\ Py.get snippet "title" (JStr "")
         = Ok (cell (field channel "snippet" "title")).
Proof.
  unfold is_channel, group_ok, field.
  destruct channel as [| | | | |f]; try discriminate.
  cbn [top Py.get andb].
  destruct (Py.assoc "snippet" f) as [[| | | | |sn]|]; try discriminate;
    intros _; (split; [reflexivity|]); eexists; split; reflexivity.
Qed.

Lemma dict_row_within row :
  within_header row -> dict_row channels_header row = Ok (dict_cells row).
Proof.
  intros H. unfold dict_row.
  replace (forallb _ row) with true; [reflexivity|].
  symmetry. apply forallb_forall. intros [k v] Hin.
  apply existsb_exists. exists k. split; [|apply String.eqb_refl].
  apply H, List.in_map_iff. exists (k, v). auto.
Qed.

Lemma dict_row_foreign row k :
  In k (List.map fst row) -> ~ In k channels_header ->
  dict_row channels_header row = Raise ValueError.
Proof.
  intros Hin Hout. unfold dict_row.
  replace (forallb _ row) with false; [reflexivity|].
  symmetry. apply not_true_is_false. intros H.
  rewrite forallb_forall in H.
  apply List.in_map_iff in Hin as ([k' v] & <- & Hin).
  specialize (H _ Hin). apply existsb_exists in H as (h & Hh & E).
  apply String.eqb_eq in E. cbn [fst] in *. subst h. auto.
Qed.

Section WritersMore.

Context {net : Type}.
Variable repr : json -> string.

Lemma write_video_rows_all (P : list json -> Prop) out_path source_input
    channel_id channel_title videos :
  (forall video row,
      video_row repr source_input channel_id channel_title video = Ok row ->
      P row) ->
  forall (n : net) files written trace crows st',
    write_video_rows repr out_path source_input channel_id channel_title
                     videos
                     (State n (<[out_path := written]> files) trace crows)
    = (Ok tt, st') ->
    exists rows,
      Forall P rows /\ length rows = length videos
      /\ st' = State n (<[out_path := written ++ rows]> files) trace crows.
Proof.
  intros HP. induction videos as [|video rest IH];
    intros n files written trace crows st' H.
  - cbn in H. injection H as <-. exists []. rewrite app_nil_r. auto.
  - cbn [write_video_rows] in H.
    apply bind_ok in H as (row & st1 & Hrow & H).
    unfold lift in Hrow. injection Hrow as Hrow <-.
    apply bind_ok in H as ([] & st2 & Hw & H).
    unfold writerow in Hw. cbn [st_net st_files st_trace channel_rows] in Hw.
    injection Hw as <-. rewrite alter_insert_eq in H.
    apply IH in H as (rows & Hall & Hlen & ->).
    exists (row :: rows). split; [|split].
    + constructor; [apply (HP _ _ Hrow)|exact Hall].
    + cbn. congruence.
    + rewrite <- app_assoc. reflexivity.
Qed.

(** X13. A video table that [write_videos_info] has written to its end is
    rectangular: the header and one row per video, every row with as many
    cells as the header has columns; the file was opened once and nothing
    else of the state has changed. *)
Theorem write_videos_info_rectangular out_path channel videos source_input
    (st st' : state net) :
  write_videos_info repr out_path channel videos source_input st
  = (Ok tt, st') ->
  exists rows,
    length rows = length videos
    /\ Forall (fun row => length row = length videos_header) rows
    /\ st' = State (st_net st)
                   (<[out_path := videos_header :: rows]> (st_files st))
                   (st_trace st ++ [EvOpenW out_path]) (channel_rows st).
Proof.
  unfold write_videos_info. intros H.
  apply bind_ok in H as (cid & st1 & H1 & H).
  unfold lift in H1. injection H1 as _ <-.
  apply bind_ok in H as (sn & st1 & H1 & H).
  unfold lift in H1. injection H1 as _ <-.
  apply bind_ok in H as (ctitle & st1 & H1 & H).
  unfold lift in H1. injection H1 as _ <-.
  apply bind_ok in H as ([] & st1 & H1 & H).
  unfold open_w in H1. injection H1 as <-.
  apply bind_ok in H as ([] & st2 & H2 & H).
  unfold writerow in H2. cbn [st_net st_files st_trace channel_rows] in H2.
  injection H2 as <-. rewrite alter_insert_eq in H.
  apply (write_video_rows_all
           (fun row => length row = length videos_header)) in H.
  - destruct H as (rows & Hall & Hlen & ->). exists rows. auto.
  - intros video row. apply video_row_width.
Qed.

Lemma write_video_rows_stops out_path source_input channel good bad rest e :
  Forall (fun video => is_video video = true) good ->
  video_row repr source_input (cell (top channel "id"))
            (cell (field channel "snippet" "title")) bad = Raise e ->
  forall (n : net) files written trace crows,
    write_video_rows repr out_path source_input (cell (top channel "id"))
                     (cell (field channel "snippet" "title"))
                     (good ++ bad :: rest)
                     (State n (<[out_path := written]> files) trace crows)
    = (Raise e,
       State n (<[out_path :=
                    written
                    ++ List.map (video_cells repr source_input channel) good]>
                  files) trace crows).
Proof.
  intros Hgood Hbad. induction Hgood as [|video good' Hv _ IH];
    intros n files written trace crows.
  - cbn [app write_video_rows List.map]. unfold bind at 1, lift at 1.
    rewrite Hbad, app_nil_r. reflexivity.
  - cbn [app write_video_rows]. unfold bind at 1, lift at 1.
    rewrite (video_row_cells _ _ _ _ Hv).
    unfold bind at 1, writerow. cbn [st_net st_files st_trace channel_rows].
    rewrite alter_insert_eq, IH. cbn [List.map].
    rewrite <- app_assoc. reflexivity.
Qed.

(** X14. When a video record cannot be read, [write_videos_info] raises at that
    record and leaves a file that stops short: the header and the rows of
    the records before it; the records after it are never written. *)
Theorem write_videos_info_stops_short out_path channel good bad rest
    source_input e (st : state net) :
  is_channel channel = true ->
  Forall (fun video => is_video video = true) good ->
  video_row repr source_input (cell (top channel "id"))
            (cell (field channel "snippet" "title")) bad = Raise e ->
  write_videos_info repr out_path channel (good ++ bad :: rest) source_input st
  = (Raise e,
     State (st_net st)
           (<[out_path :=
                videos_header
                :: List.map (video_cells repr source_input channel) good]>
              (st_files st))
           (st_trace st ++ [EvOpenW out_path]) (channel_rows st)).
Proof.
  intros Hch Hgood Hbad.
  destruct (channel_cells _ Hch) as (E1 & snippet & E2 & E3).
  unfold write_videos_info.
  unfold bind at 1, lift at 1. rewrite E1.
  unfold bind at 1, lift at 1. rewrite E2.
  unfold bind at 1, lift at 1. rewrite E3.
  unfold bind at 1, open_w. unfold bind at 1, writerow.
  cbn [st_net st_files st_trace channel_rows].
  rewrite alter_insert_eq.
  apply (write_video_rows_stops _ _ _ _ _ _ _ Hgood Hbad).
Qed.

Lemma write_dict_rows_within out_path rows :
  Forall within_header rows ->
  forall (n : net) files written trace crows,
    write_dict_rows out_path rows
                    (State n (<[out_path := written]> files) trace crows)
    = (Ok tt,
       State n (<[out_path := written ++ List.map dict_cells rows]> files)
             trace crows).
Proof.
  induction 1 as [|row rest Hk _ IH]; intros n files written trace crows.
  - cbn. rewrite app_nil_r. reflexivity.
  - cbn [write_dict_rows]. unfold bind at 1, lift at 1.
    rewrite (dict_row_within _ Hk).
    unfold bind at 1, writerow. cbn [st_net st_files st_trace channel_rows].
    rewrite alter_insert_eq, IH. cbn [List.map].
    rewrite <- app_assoc. reflexivity.
Qed.

(** X15. [write_channels_csv] accepts every row whose keys are keys of the
    header: it writes the header and, for each row in order, nine cells in
    the order of the header, the empty string under a key the row lacks. *)
Theorem write_channels_csv_rows out_path rows (st : state net) :
  Forall within_header rows ->
  write_channels_csv out_path rows st
  = (Ok tt,
     State (st_net st)
           (<[out_path :=
                List.map JStr channels_header :: List.map dict_cells rows]>
              (st_files st))
           (st_trace st ++ [EvOpenW out_path]) (channel_rows st))
  /\ Forall (fun cells => length cells = 9) (List.map dict_cells rows)
  /\ (forall row k,
         In row rows -> In k channels_header -> Py.assoc k row = None ->
         In (JStr "") (dict_cells row)).
Proof.
  intros Hk. split; [|split].
  - unfold write_channels_csv, bind at 1, open_w.
    unfold bind at 1, writerow. cbn [st_net st_files st_trace channel_rows].
    rewrite alter_insert_eq. apply (write_dict_rows_within _ _ Hk).
  - apply Forall_forall. intros cells Hin.
    apply list_elem_of_In, List.in_map_iff in Hin as (row & <- & _).
    reflexivity.
  - intros row k _ Hin Hnone. unfold dict_cells.
    apply List.in_map_iff. exists k. rewrite Hnone. auto.
Qed.

Lemma write_dict_rows_foreign out_path good bad rest k :
  Forall within_header good ->
  In k (List.map fst bad) -> ~ In k channels_header ->
  forall (n : net) files written trace crows,
    write_dict_rows out_path (good ++ bad :: rest)
                    (State n (<[out_path := written]> files) trace crows)
    = (Raise ValueError,
       State n (<[out_path := written ++ List.map dict_cells good]> files)
             trace crows).
Proof.
  intros Hgood Hin Hout. induction Hgood as [|row good' Hk _ IH];
    intros n files written trace crows.
  - cbn [app write_dict_rows List.map]. unfold bind at 1, lift at 1.
    rewrite (dict_row_foreign _ _ Hin Hout), app_nil_r. reflexivity.
  - cbn [app write_dict_rows]. unfold bind at 1, lift at 1.
    rewrite (dict_row_within _ Hk).
    unfold bind at 1, writerow. cbn [st_net st_files st_trace channel_rows].
    rewrite alter_insert_eq, IH. cbn [List.map].
    rewrite <- app_assoc. reflexivity.
Qed.

(** X16. A row with a key that the header does not have makes
    [write_channels_csv] raise [ValueError] at that row; the file is left
    with the header and the rows before it. *)
Theorem write_channels_csv_foreign_key out_path good bad rest k
    (st : state net) :
  Forall within_header good ->
  In k (List.map fst bad) -> ~ In k channels_header ->
  write_channels_csv out_path (good ++ bad :: rest) st
  = (Raise ValueError,
     State (st_net st)
           (<[out_path :=
                List.map JStr channels_header :: List.map dict_cells good]>
              (st_files st))
           (st_trace st ++ [EvOpenW out_path]) (channel_rows st)).
Proof.
  intros Hgood Hin Hout.
  unfold write_channels_csv, bind at 1, open_w.
  unfold bind at 1, writerow. cbn [st_net st_files st_trace channel_rows].
  rewrite alter_insert_eq.
  apply (write_dict_rows_foreign _ _ _ _ _ Hgood Hin Hout).
Qed.

End WritersMore.

Lemma write_videos_info_rectangular_witness :
  exists rows : list (list json),
    length rows = 2
    /\ Forall (fun row => length row = length videos_header) rows.
Proof.
  destruct (write_videos_info_rectangular Mock.repr "out/x.csv" Mock.channel
              [Mock.video "v1"; JObj []] "@someHandle" Mock.start _
              (pair_eta _ _ ltac:(vm_compute; reflexivity)))
    as (rows & Hlen & Hall & _).
  exists rows. split; assumption.
Defined.

Lemma write_videos_info_stops_short_witness :
  fst (write_videos_info Mock.repr "out/x.csv" Mock.channel
         ([Mock.video "v1"] ++ JNull :: [Mock.video "v2"]) "@someHandle"
         Mock.start)
  = Raise AttributeError.
Proof.
  rewrite (write_videos_info_stops_short Mock.repr "out/x.csv" Mock.channel
             [Mock.video "v1"] JNull [Mock.video "v2"] "@someHandle"
             AttributeError Mock.start eq_refl
             ltac:(repeat constructor) eq_refl).
  reflexivity.
Defined.

Lemma write_channels_csv_rows_witness :
  fst (write_channels_csv "out/channels_metadata.csv"
         [[("channel_id", JStr "UC1")]] Mock.start)
  = Ok tt.
Proof.
  rewrite (proj1 (write_channels_csv_rows "out/channels_metadata.csv"
                    [[("channel_id", JStr "UC1")]] Mock.start
                    ltac:(constructor;
                          [intros k [<-|[]]; right; left; reflexivity
                          |constructor]))).
  reflexivity.
Defined.

Lemma write_channels_csv_foreign_key_witness :
  fst (write_channels_csv "out/channels_metadata.csv"
         ([[("channel_id", JStr "UC1")]]
          ++ [("nickname", JStr "x")] :: []) Mock.start)
  = Raise ValueError.
Proof.
  rewrite (write_channels_csv_foreign_key "out/channels_metadata.csv"
             [[("channel_id", JStr "UC1")]] [("nickname", JStr "x")] []
             "nickname" Mock.start
             ltac:(constructor;
                   [intros k [<-|[]]; right; left; reflexivity|constructor])
             ltac:(left; reflexivity)
             ltac:(cbn; intuition discriminate)).
  reflexivity.
Defined.

(** ** Further properties: the lines of a run *)


Section Lines.

Context {net : Type}.
Variable platform : request -> net -> response * net.
Variable repr : json -> string.


(** X17. A line whose search, or whose lookup by user name, finds nothing is
    skipped: one request, one skip message, no row, no file, and the
    outcome is not a failure. *)
Theorem process_channel_skips_unknown fuel api_key outdir value
    (st : state net) payload n' :
  let kind := fst (extract_channel_identifier value) in
  let ident := snd (extract_channel_identifier value) in
  let rq :=
    if String.eqb kind "username"
    then Request "channels"
           [("part", JStr "id"); ("forUsername", JStr ident);
            ("key", JStr api_key)]
    else Request "search"
           [("part", JStr "snippet"); ("q", JStr ident);
            ("type", JStr "channel"); ("maxResults", JStr "1");
            ("key", JStr api_key)] in
  kind <> "id" ->
  platform rq (st_net st) = (Decoded payload, n') ->
  clean payload -> items_of payload = Some [] ->
  process_channel platform repr fuel api_key outdir value st
  = (Ok tt,
     State n' (st_files st)
           (st_trace st ++ [EvGet rq; EvStdout (MsgSkip value)])
           (channel_rows st)).
Proof.
  cbv zeta. intros Hkind H Hc Hi.
  rewrite process_channel_eq. unfold bind at 1, resolve_channel_id.
  destruct (extract_channel_identifier value) as [kind ident].
  cbn [fst snd] in *.
  destruct (String.eqb_spec kind "id") as [->|_]; [congruence|].
  destruct (String.eqb kind "username");
    unfold bind at 1;
    rewrite (http_get_clean _ _ _ _ _ _ H Hc);
    unfold bind at 1, lift at 1; rewrite (get_items _ _ Hi);
    cbn [Py.truthy negb]; unfold ret; cbn [Py.truthy negb];
    unfold emit, sent; cbn [st_net st_files st_trace channel_rows];
    rewrite <- app_assoc; reflexivity.
Qed.




(** X20. The row of a channel is appended before its videos are exported: when
    the export then fails, the failure is reported and the channel is in
    the rows of the channel table all the same. *)
Theorem failed_export_keeps_row fuel api_key outdir value (st st' : state net)
    row e :
  line_row platform repr api_key value st = Some row ->
  process_channel platform repr fuel api_key outdir value st = (Raise e, st') ->
  guarded platform repr fuel api_key outdir value st
  = (Ok tt,
     State (st_net st') (st_files st')
           (st_trace st' ++ [EvStderr (MsgError value e)])
           (channel_rows st ++ [row])).
Proof.
  intros Hrow H.
  pose proof (process_channel_rows platform repr fuel api_key outdir value st)
    as Hrows.
  rewrite H, Hrow in Hrows. cbn [snd] in Hrows.
  unfold guarded, try_except. rewrite H. unfold emit. rewrite Hrows.
  reflexivity.
Qed.

End Lines.

Lemma process_channel_skips_unknown_witness :
  process_channel Mock.platform Mock.repr 5 "KEY" "out" "@unknownhandle999"
                  Mock.start
  = (Ok tt,
     State tt ∅
           [EvGet (Request "search"
                     [("part", JStr "snippet"); ("q", JStr "unknownhandle999");
                      ("type", JStr "channel"); ("maxResults", JStr "1");
                      ("key", JStr "KEY")]);
            EvStdout (MsgSkip "@unknownhandle999")] []).
Proof.
  assert (Hk : fst (extract_channel_identifier "@unknownhandle999") <> "id")
    by (vm_compute; discriminate).
  rewrite (process_channel_skips_unknown Mock.platform Mock.repr 5 "KEY" "out"
             "@unknownhandle999" Mock.start (JObj []) tt Hk eq_refl
             (ex_intro _ [] (conj eq_refl eq_refl)) eq_refl).
  reflexivity.
Defined.



Lemma failed_export_keeps_row_witness :
  fst (guarded Faulty.offline Mock.repr 5 "KEY" "out" Mock.channel_id
         Mock.start) = Ok tt
  /\ length (channel_rows (snd (guarded Faulty.offline Mock.repr 5 "KEY" "out"
                                  Mock.channel_id Mock.start))) = 1.
Proof.
  assert (Hrow : exists row,
             line_row Faulty.offline Mock.repr "KEY" Mock.channel_id Mock.start
             = Some row) by (eexists; vm_compute; reflexivity).
  destruct Hrow as [row Hrow].
  rewrite (failed_export_keeps_row Faulty.offline Mock.repr 5 "KEY" "out"
             Mock.channel_id Mock.start _ row (UrlopenError "timed out") Hrow
             (pair_eta _ _ ltac:(vm_compute; reflexivity))).
  split; reflexivity.
Defined.

(** ** Further properties: the files and the exit status of a run *)

Lemma untouched_refl {net} P (st : state net) : untouched P st st.
Proof. intros path _. reflexivity. Qed.

Lemma untouched_trans {net} P (a b c : state net) :
  untouched P a b -> untouched P b c -> untouched P a c.
Proof. intros H1 H2 path Hp. rewrite (H2 path Hp). apply H1, Hp. Qed.

Lemma untouched_weaken {net} (P Q : string -> Prop) (a b : state net) :
  (forall p, P p -> Q p) -> untouched P a b -> untouched Q a b.
Proof. intros HPQ H path Hq. apply H. intros Hp. apply Hq, HPQ, Hp. Qed.

Lemma net_untouched {net} P (a b : state net) :
  net_step a b -> untouched P a b.
Proof. intros (Hf & _) path _. rewrite Hf. reflexivity. Qed.

Lemma channel_filename_sanitized channel filename :
  channel_filename channel = Ok filename ->
  exists title, filename = sanitize_filename title.
Proof.
  unfold channel_filename. intros H.
  apply rbind_ok in H as (sn & _ & H). apply rbind_ok in H as (t & _ & H).
  destruct t; try discriminate H. injection H as <-. eauto.
Qed.

Ltac files_bind := apply (respects_bind _ (untouched_trans _)).

Ltac files_pure :=
  first [ apply (respects_lift _ (untouched_refl _))
        | apply (respects_ret _ (untouched_refl _)) ].

Section Files.

Context {net : Type}.
Variable platform : request -> net -> response * net.
Variable repr : json -> string.

Section Writing.

Variable P : string -> Prop.

Lemma emit_untouched e : respects (net := net) (untouched P) (emit e).
Proof. intros st path _. reflexivity. Qed.

Lemma writerow_untouched path row :
  P path -> respects (net := net) (untouched P) (writerow path row).
Proof.
  intros Hp st path' Hn. cbn. apply lookup_alter_ne. intros ->. exact (Hn Hp).
Qed.

Lemma open_w_untouched path :
  P path -> respects (net := net) (untouched P) (open_w path).
Proof.
  intros Hp st path' Hn. cbn. apply lookup_insert_ne. intros ->. exact (Hn Hp).
Qed.

Lemma write_videos_info_untouched out_path channel videos source_input :
  P out_path ->
  respects (net := net) (untouched P)
    (write_videos_info repr out_path channel videos source_input).
Proof.
  intros Hp. unfold write_videos_info.
  files_bind; [files_pure|]. intros channel_id.
  files_bind; [files_pure|]. intros snippet.
  files_bind; [files_pure|]. intros channel_title.
  files_bind; [apply open_w_untouched, Hp|]. intros _.
  files_bind; [apply writerow_untouched, Hp|]. intros _.
  induction videos as [|video rest IH]; cbn [write_video_rows].
  - files_pure.
  - files_bind; [files_pure|]. intros row.
    files_bind; [apply writerow_untouched, Hp|]. intros _. exact IH.
Qed.

Lemma write_channels_csv_untouched out_path rows :
  P out_path ->
  respects (net := net) (untouched P) (write_channels_csv out_path rows).
Proof.
  intros Hp. unfold write_channels_csv.
  files_bind; [apply open_w_untouched, Hp|]. intros _.
  files_bind; [apply writerow_untouched, Hp|]. intros _.
  induction rows as [|row rest IH]; cbn [write_dict_rows].
  - files_pure.
  - files_bind; [files_pure|]. intros cells.
    files_bind; [apply writerow_untouched, Hp|]. intros _. exact IH.
Qed.

End Writing.

Lemma export_videos_untouched fuel api_key outdir value channel :
  respects (untouched (video_table outdir))
    (export_videos platform repr fuel api_key outdir value channel).
Proof.
  unfold export_videos.
  files_bind; [files_pure|]. intros uploads.
  apply (respects_bind_lift _ (untouched_refl _)). intros filename Hname.
  files_bind.
  { eapply respects_weaken; [apply net_untouched|apply gather_videos_net]. }
  intros videos. files_bind.
  { apply write_videos_info_untouched.
    destruct (channel_filename_sanitized _ _ Hname) as [title ->].
    exists title. reflexivity. }
  intros _. apply emit_untouched.
Qed.

Lemma process_channel_untouched fuel api_key outdir value :
  respects (untouched (video_table outdir))
    (process_channel platform repr fuel api_key outdir value).
Proof.
  rewrite process_channel_eq.
  files_bind.
  { eapply respects_weaken; [apply net_untouched|apply resolve_channel_id_net]. }
  intros channel_id.
  destruct (negb (Py.truthy channel_id)); [apply emit_untouched|].
  files_bind.
  { eapply respects_weaken;
      [apply net_untouched|apply get_channel_details_net]. }
  intros channel. files_bind; [files_pure|]. intros row.
  files_bind; [intros st path _; reflexivity|]. intros _.
  apply export_videos_untouched.
Qed.

Lemma main_loop_untouched fuel api_key outdir lines :
  respects (untouched (video_table outdir))
    (main_loop platform repr fuel api_key outdir lines).
Proof.
  induction lines as [|value rest IH]; [cbn; files_pure|].
  rewrite main_loop_cons. files_bind; [|intros _; exact IH].
  apply (respects_try_except _ (untouched_trans _)).
  - apply process_channel_untouched.
  - intros e. apply emit_untouched.
Qed.

(** X21. A run writes output files only. Whatever the key, the input lines and
    the answers of the platform, and whether lines fail or the run never
    ends, a file whose path is neither the video table of the output
    directory for some sanitized title nor the channel table holds after
    [main] what it held before, and is not created if it was not there. *)
Theorem main_writes_output_files_only fuel api_key outdir input
    (st : state net) path :
  ~ output_file outdir path ->
  st_files (snd (main platform repr fuel api_key outdir input st)) !! path
  = st_files st !! path.
Proof.
  intros Hn. revert path Hn. revert st.
  change (respects (untouched (output_file outdir))
            (main platform repr fuel api_key outdir input)).
  unfold main. destruct (Str.is_empty api_key).
  { files_bind; [apply emit_untouched|]. intros _. files_pure. }
  destruct (read_channels input) as [|value rest].
  { files_bind; [apply emit_untouched|]. intros _. files_pure. }
  unfold pipeline.
  files_bind; [intros st path _; reflexivity|]. intros _.
  files_bind.
  { eapply respects_weaken; [|apply main_loop_untouched].
    intros a b. apply untouched_weaken. intros p Hp. left. exact Hp. }
  intros _. files_bind; [intros st path _; reflexivity|]. intros rows.
  files_bind; [apply write_channels_csv_untouched; right; reflexivity|].
  intros _. files_bind; [apply emit_untouched|]. intros _. files_pure.
Qed.



End Files.

Lemma main_writes_output_files_only_witness :
  st_files
    (snd (main Mock.platform Mock.repr 5 "KEY" "out"
            [Mock.channel_id; "@unknownhandle999"]
            (State tt (<["notes.txt" := [[JStr "mine"]]]> ∅) [] [])))
    !! "notes.txt"
  = Some [[JStr "mine"]].
Proof.
  rewrite (main_writes_output_files_only Mock.platform Mock.repr 5 "KEY" "out"
             [Mock.channel_id; "@unknownhandle999"]
             (State tt (<["notes.txt" := [[JStr "mine"]]]> ∅) [] [])
             "notes.txt").
  - cbn [st_files]. apply lookup_insert_eq.
  - intros [[title H]|H].
    + unfold videos_info_path in H.
      destruct (path_join_suffix "out"
                  (sanitize_filename title +:+ "_videosinfo.csv")) as [pre E].
      rewrite E in H. apply (f_equal String.length) in H.
      rewrite !StrFacts.length_append in H. cbn in H. lia.
    + vm_compute in H. discriminate H.
Defined.
